(** * channel-splitter: a shallow embedding of the batch audio channel splitter

    The development follows [channel-splitter.py] (the variant with the
    pre-flight overwrite check) and [channelsplitter.py] (the variant
    without it).  Python values are modelled as follows:
    - [int] as [Z] (Python integers are unbounded);
    - [str] as a list of Unicode code points ([N]);
    - printing, the overwrite prompt and the sox invocations as events of a
      small writer/state/exception monad;
    - the [while] loops with an explicit fuel, so that a loop which never
      leaves its condition is visible as the outcome [Fuel]. *)

From Stdlib Require Import Ascii String DecimalString DecimalZ.
From Stdlib Require Import ZArith List Lia Bool.
Import ListNotations.

Open Scope Z_scope.

(** ** Python strings *)

Definition codepoint := N.
Definition str := list codepoint.

(** A Rocq string literal read as a Python [str]. *)
Definition lit (s : string) : str := map N_of_ascii (list_ascii_of_string s).

(** [str(n)] for an integer: the decimal numeral, with a leading minus sign
    for negative numbers. *)
Definition str_of_int (n : Z) : str := lit (NilZero.string_of_int (Z.to_int n)).

Definition is_ascii (c : codepoint) : bool := (c <? 128)%N.
Definition is_ascii_digit (c : codepoint) : bool := ((48 <=? c) && (c <=? 57))%N.

Definition str_eqb (a b : str) : bool :=
  if list_eq_dec N.eq_dec a b then true else false.

(** [s.rfind(c)] for a one-character needle: the highest index at which [c]
    occurs, or [-1]. *)
Fixpoint rfind_from (p : str) (c : codepoint) (i : Z) (found : Z) : Z :=
  match p with
  | [] => found
  | x :: r => rfind_from r c (i + 1) (if (x =? c)%N then i else found)
  end.

Definition rfind (p : str) (c : codepoint) : Z := rfind_from p c 0 (-1).

(** [range(a, b)] *)
Definition range (a b : Z) : list Z :=
  map (fun i => a + Z.of_nat i) (seq 0 (Z.to_nat (b - a))).

(** ** What the program takes from its environment

    The Unicode tables of the interpreter and the host system (the sox
    executable, the file system) are not part of the repository; the program
    is modelled over any implementation of them.  Whether sox can be started
    at all is followed at the probe of [check_sox_installed]; the later runs
    of sox are taken to start. *)

Class Runtime := {
  (** [c.isdigit()] for a code point outside ASCII *)
  uni_isdigit : codepoint -> bool;
  (** [int(c)] for a code point outside ASCII; [None] is [ValueError] *)
  uni_decimal : codepoint -> option Z;
  (** [s.lower()] for a string that is not pure ASCII *)
  uni_lower : str -> str;
  (** [os.name == 'nt'] *)
  os_name_nt : bool;
  (** the file system together with the installed sox *)
  World : Type;
  (** the command under which sox answers [--version] with exit status 0,
      if any; for the sox of the search path it is ["sox"] *)
  sox_probe : World -> option str;
  (** whether the search path holds a [sox] to start: where it does not,
      running [sox] raises [FileNotFoundError] *)
  sox_on_path : World -> bool;
  (** [int(stdout.strip())] of [<cmd> --i -c <file>], for a command that
      starts; [None] is [ValueError] *)
  sox_channels : World -> str -> str -> option Z;
  path_isfile : World -> str -> bool;
  path_exists : World -> str -> bool;
  (** the file system after [sox <input> <output> remix <channels>] *)
  sox_remix : World -> str -> str -> list Z -> World
}.

(** ** Built-ins of the interpreter used by the program *)

Section Builtins.
Context {RT : Runtime}.

(** [str.isdigit]: at least one character, and every character a digit. *)
Definition isdigit_char (c : codepoint) : bool :=
  if is_ascii c then is_ascii_digit c else uni_isdigit c.

Definition isdigit (s : str) : bool :=
  match s with
  | [] => false
  | _ => forallb isdigit_char s
  end.

(** [int(c)] on a one-character string. *)
Definition int_of_char (c : codepoint) : option Z :=
  if is_ascii c then
    if is_ascii_digit c then Some (Z.of_N c - 48) else None
  else uni_decimal c.

(** [str.lower]: the interpreter lowers a pure ASCII string byte by byte and
    falls back on the Unicode tables otherwise. *)
Definition ascii_lower (c : codepoint) : codepoint :=
  if ((65 <=? c) && (c <=? 90))%N then (c + 32)%N else c.

Definition lower (s : str) : str :=
  if forallb is_ascii s then map ascii_lower s else uni_lower s.

(** [genericpath._splitext(p, sep, altsep, extsep)].  The scan over the
    leading dots of the last component is the inner [while] of the library
    function; it visits at most [n] positions starting at [filenameIndex]. *)
Fixpoint has_stem (p : str) (extsep : codepoint) (filenameIndex n : nat) : bool :=
  match n with
  | O => false
  | S n' =>
      match nth_error p filenameIndex with
      | Some x =>
          if (x =? extsep)%N then has_stem p extsep (S filenameIndex) n' else true
      | None => true
      end
  end.

Definition _splitext (p : str) (sep : codepoint) (altsep : option codepoint)
    (extsep : codepoint) : str * str :=
  let sepIndex := rfind p sep in
  let sepIndex :=
    match altsep with
    | Some a => Z.max sepIndex (rfind p a)
    | None => sepIndex
    end in
  let dotIndex := rfind p extsep in
  if (dotIndex >? sepIndex) &&
     has_stem p extsep (Z.to_nat (sepIndex + 1)) (Z.to_nat (dotIndex - (sepIndex + 1)))
  then (firstn (Z.to_nat dotIndex) p, skipn (Z.to_nat dotIndex) p)
  else (p, []).

(** [os.path.splitext]: [posixpath] or [ntpath] according to the host. *)
Definition splitext (p : str) : str * str :=
  if os_name_nt then _splitext p 92%N (Some 47%N) 46%N
  else _splitext p 47%N None 46%N.

End Builtins.

(** ** Effects: output, standard input, the host, exceptions *)

Inductive exn :=
| ValueError
| IndexError
| EOFError
| NameError
| CalledProcessError
| SystemExit (code : Z).

(** The lines the program prints.  Their wording is fixed by the source;
    only the values interpolated into them are kept. *)
Inductive message :=
| MsgSoxGuidance
| MsgSoxNotInPath
| MsgUsage
| MsgDigitsOnly
| MsgFileNotFound (input_file : str)
| MsgNoChannelCount (input_file : str)
| MsgTotalChannels (input_file : str) (total_channels : Z)
| MsgSameAsTotal (grouping_pattern : str) (total_channels : Z)
| MsgSumExceeds (total_pattern total_channels : Z)
| MsgAlreadyExist
| MsgListed (file : str)
| MsgOverwritePrompt
| MsgExiting
| MsgSaved (output_file : str).

Inductive event :=
| Print (m : message)
| Remix (input_file output_file : str) (channels : list Z).

Section Effects.
Context {RT : Runtime}.

Record state := mkState { world : World; stdin : list str }.

(** [Fuel] is the outcome of a loop that was still running when the fuel
    ran out. *)
Inductive outcome (A : Type) :=
| Ret (a : A) (s : state)
| Exc (e : exn) (s : state)
| Fuel.
Arguments Ret {A} a s.
Arguments Exc {A} e s.
Arguments Fuel {A}.

(** A computation: from a state to the events it emits, in order, and its
    outcome. *)
Definition M (A : Type) := state -> list event * outcome A.

Definition ret {A} (a : A) : M A := fun s => ([], Ret a s).

Definition bind {A B} (m : M A) (k : A -> M B) : M B :=
  fun s =>
    match m s with
    | (out, Ret a s') => let (out', r) := k a s' in (out ++ out', r)
    | (out, Exc e s') => (out, Exc e s')
    | (out, Fuel) => (out, Fuel)
    end.

Definition raise {A} (e : exn) : M A := fun s => ([], Exc e s).

Definition print (m : message) : M unit := fun s => ([Print m], Ret tt s).

(** [input(prompt)]: shows the prompt and reads one line of standard input,
    without its newline; [EOFError] at end of input. *)
Definition input (prompt : message) : M str :=
  fun s =>
    match stdin s with
    | l :: rest => ([Print prompt], Ret l (mkState (world s) rest))
    | [] => ([Print prompt], Exc EOFError s)
    end.

Definition ask {A} (f : World -> A) : M A := fun s => ([], Ret (f (world s)) s).

(** [subprocess.run(['sox', input_file, output_file, 'remix'] + remix_args)] *)
Definition run_remix (input_file output_file : str) (channels : list Z) : M unit :=
  fun s =>
    ([Remix input_file output_file channels],
     Ret tt (mkState (sox_remix (world s) input_file output_file channels) (stdin s))).

Definition lift_opt {A} (e : exn) (o : option A) : M A :=
  match o with
  | Some a => ret a
  | None => raise e
  end.

(** [while cond: body], cut off after [fuel] iterations. *)
Fixpoint while {St} (fuel : nat) (cond : St -> bool) (body : St -> M St) (x : St)
    : M St :=
  if cond x then
    match fuel with
    | O => fun _ => ([], Fuel)
    | S fuel' => bind (body x) (while fuel' cond body)
    end
  else ret x.

(** [for a in l: f(a)] *)
Fixpoint for_each {A} (l : list A) (f : A -> M unit) : M unit :=
  match l with
  | [] => ret tt
  | a :: l' => bind (f a) (fun _ => for_each l' f)
  end.

(** [len(s)], [s[i]] (negative indices count from the end) and [int(c)] *)
Definition len {A} (s : list A) : Z := Z.of_nat (length s).

Definition getitem (s : str) (i : Z) : M codepoint :=
  let i := if i <? 0 then i + len s else i in
  if (i <? 0) || (len s <=? i) then raise IndexError
  else lift_opt IndexError (nth_error s (Z.to_nat i)).

Definition int (c : codepoint) : M Z := lift_opt ValueError (int_of_char c).

End Effects.

Arguments Ret {RT A} a s.
Arguments Exc {RT A} e s.
Arguments Fuel {RT A}.

Declare Scope py_scope.
Delimit Scope py_scope with py.
Notation "x <- m ;; k" := (bind m (fun x => k))
  (at level 61, m at next level, right associativity) : py_scope.
Notation "m ;; k" := (bind m (fun _ => k))
  (at level 61, right associativity) : py_scope.
Open Scope py_scope.

(** ** The program *)

(** The local variables of the partition loop. *)
Record loop_state := mkLoop {
  channel_start : Z;
  remaining_channels : Z;
  pattern_index : Z
}.

(** The partition loop of [check_files_exist] carries its result list too. *)
Record check_state := mkCheck {
  check_loop : loop_state;
  existing_files : list str
}.

(** The loop condition [remaining_channels > 0]. *)
Definition running (st : loop_state) : bool := remaining_channels st >? 0.

Section Shared.
Context {RT : Runtime}.

(** [subprocess.run(["sox", "--version"], ..., check=True)] returns: the sox
    of the search path has answered. *)
Definition sox_answers (w : World) : bool :=
  match sox_probe w with
  | Some sox_command => str_eqb sox_command (lit "sox")
  | None => false
  end.

(** [sum(int(digit) for digit in grouping_pattern)] *)
Fixpoint sum_digits (acc : Z) (grouping_pattern : str) : M Z :=
  match grouping_pattern with
  | [] => ret acc
  | digit :: rest => d <- int digit ;; sum_digits (acc + d) rest
  end.

(** [validate_grouping_pattern], the same text in both files.  In
    [int(grouping_pattern)] the pattern has one character. *)
Definition validate_grouping_pattern (grouping_pattern : str) (total_channels : Z)
    : M bool :=
  same <- (match grouping_pattern with
           | [c] => v <- int c ;; ret (v =? total_channels)
           | _ => ret false
           end) ;;
  if same : bool then
    print (MsgSameAsTotal grouping_pattern total_channels) ;;
    ret false
  else
    total_pattern <- sum_digits 0 grouping_pattern ;;
    if total_pattern >? total_channels then
      print (MsgSumExceeds total_pattern total_channels) ;;
      ret false
    else ret true.

(** One iteration of the [while] loop of [split_channels], the same text in
    both files. *)
Definition split_body (input_file grouping_pattern : str) (st : loop_state)
    : M loop_state :=
  let channel_start := channel_start st in
  let remaining_channels := remaining_channels st in
  let pattern_index := pattern_index st in
  sel <- (if pattern_index <? len grouping_pattern then
            c <- getitem grouping_pattern pattern_index ;;
            group_size <- int c ;;
            ret (group_size, pattern_index + 1)
          else
            c <- getitem grouping_pattern (-1) ;;
            group_size <- int c ;;
            ret (group_size, pattern_index)) ;;
  let '(group_size, pattern_index) := sel in
  let group_size := if group_size >? remaining_channels then 1 else group_size in
  let group_name :=
    if group_size =? 1 then str_of_int channel_start
    else str_of_int channel_start ++ lit "-"
           ++ str_of_int (channel_start + group_size - 1) in
  let '(base_name, ext) := splitext input_file in
  let output_file := base_name ++ lit "[" ++ group_name ++ lit "]" ++ ext in
  let remix_args := range channel_start (channel_start + group_size) in
  run_remix input_file output_file remix_args ;;
  print (MsgSaved output_file) ;;
  ret (mkLoop (channel_start + group_size) (remaining_channels - group_size)
         pattern_index).

Definition split_loop (fuel : nat) (input_file grouping_pattern : str)
    (total_channels : Z) : M loop_state :=
  while fuel running
    (split_body input_file grouping_pattern)
    (mkLoop 1 total_channels 0).

End Shared.

(** *** channel-splitter.py *)

Module Splitter.
Section Defs.
Context {RT : Runtime}.

(** [check_sox_installed].  Both failures of the probe are caught.  On
    Windows the search of the installation folders then calls [glob.glob],
    and the module [glob] is not imported: the first round of that loop
    raises [NameError], so the only command ever returned is ["sox"]. *)
Definition check_sox_installed : M str :=
  ok <- ask sox_answers ;;
  if ok : bool then ret (lit "sox")
  else if os_name_nt then raise NameError
  else print MsgSoxGuidance ;; raise (SystemExit 1).

(** One iteration of the [while] loop of [check_files_exist]. *)
Definition check_body (input_file grouping_pattern : str) (st : check_state)
    : M check_state :=
  let channel_start := channel_start (check_loop st) in
  let remaining_channels := remaining_channels (check_loop st) in
  let pattern_index := pattern_index (check_loop st) in
  let existing_files := existing_files st in
  sel <- (if pattern_index <? len grouping_pattern then
            c <- getitem grouping_pattern pattern_index ;;
            group_size <- int c ;;
            ret (group_size, pattern_index + 1)
          else
            c <- getitem grouping_pattern (-1) ;;
            group_size <- int c ;;
            ret (group_size, pattern_index)) ;;
  let '(group_size, pattern_index) := sel in
  let group_size := if group_size >? remaining_channels then 1 else group_size in
  let group_name :=
    if group_size =? 1 then str_of_int channel_start
    else str_of_int channel_start ++ lit "-"
           ++ str_of_int (channel_start + group_size - 1) in
  let '(base_name, ext) := splitext input_file in
  let output_file := base_name ++ lit "[" ++ group_name ++ lit "]" ++ ext in
  present <- ask (fun w => path_exists w output_file) ;;
  let existing_files :=
    if present : bool then existing_files ++ [output_file] else existing_files in
  ret (mkCheck
         (mkLoop (channel_start + group_size) (remaining_channels - group_size)
            pattern_index)
         existing_files).

(** [check_files_exist]: the channel count is asked of ['sox'] again, outside
    any [try]. *)
Definition check_files_exist (fuel : nat) (input_file grouping_pattern : str)
    : M (list str) :=
  count <- ask (fun w => sox_channels w (lit "sox") input_file) ;;
  remaining_channels <- lift_opt ValueError count ;;
  st <- while fuel (fun st => running (check_loop st))
          (check_body input_file grouping_pattern)
          (mkCheck (mkLoop 1 remaining_channels 0) []) ;;
  ret (existing_files st).

Definition split_channels (fuel : nat) (sox_command input_file grouping_pattern : str)
    : M unit :=
  count <- ask (fun w => sox_channels w sox_command input_file) ;;
  match count with
  | None => print (MsgNoChannelCount input_file)
  | Some total_channels =>
      print (MsgTotalChannels input_file total_channels) ;;
      valid <- validate_grouping_pattern grouping_pattern total_channels ;;
      if negb valid then ret tt
      else
        existing_files <- check_files_exist fuel input_file grouping_pattern ;;
        go <- (match existing_files with
               | [] => ret true
               | _ =>
                   print MsgAlreadyExist ;;
                   for_each existing_files (fun file => print (MsgListed file)) ;;
                   user_input <- input MsgOverwritePrompt ;;
                   if negb (str_eqb (lower user_input) (lit "y")) then
                     print MsgExiting ;; ret false
                   else ret true
               end) ;;
        if go : bool then
          split_loop fuel input_file grouping_pattern total_channels ;; ret tt
        else ret tt
  end.

(** [main]; [argv] is [sys.argv]. *)
Definition main (fuel : nat) (argv : list str) : M unit :=
  sox_command <- check_sox_installed ;;
  match argv with
  | _ :: grouping_pattern :: ((_ :: _) as input_files) =>
      if negb (isdigit grouping_pattern) then print MsgDigitsOnly
      else
        for_each input_files (fun input_file =>
          isfile <- ask (fun w => path_isfile w input_file) ;;
          if negb isfile then print (MsgFileNotFound input_file)
          else split_channels fuel sox_command input_file grouping_pattern)
  | _ => print MsgUsage
  end.

End Defs.
End Splitter.

(** *** channelsplitter.py *)

Module Plain.
Section Defs.
Context {RT : Runtime}.

(** [check_sox_installed]: of the failures of the probe only
    [FileNotFoundError] is caught; a sox that starts and exits with a
    non-zero status lets [CalledProcessError] through. *)
Definition check_sox_installed : M unit :=
  ok <- ask sox_answers ;;
  if ok : bool then ret tt
  else
    found <- ask sox_on_path ;;
    if found : bool then raise CalledProcessError
    else print MsgSoxNotInPath ;; raise (SystemExit 1).

Definition split_channels (fuel : nat) (input_file grouping_pattern : str) : M unit :=
  count <- ask (fun w => sox_channels w (lit "sox") input_file) ;;
  match count with
  | None => print (MsgNoChannelCount input_file)
  | Some total_channels =>
      print (MsgTotalChannels input_file total_channels) ;;
      valid <- validate_grouping_pattern grouping_pattern total_channels ;;
      if negb valid then ret tt
      else split_loop fuel input_file grouping_pattern total_channels ;; ret tt
  end.

Definition main (fuel : nat) (argv : list str) : M unit :=
  check_sox_installed ;;
  match argv with
  | _ :: grouping_pattern :: ((_ :: _) as input_files) =>
      if negb (isdigit grouping_pattern) then print MsgDigitsOnly
      else
        for_each input_files (fun input_file =>
          isfile <- ask (fun w => path_isfile w input_file) ;;
          if negb isfile then print (MsgFileNotFound input_file)
          else split_channels fuel input_file grouping_pattern)
  | _ => print MsgUsage
  end.

End Defs.
End Plain.

(** ** Notions used to state the properties *)

(** The sox invocations among the events of a run: the files written and
    the channels each one receives. *)
Definition remix_of (e : event) : list (str * list Z) :=
  match e with
  | Remix _ output_file channels => [(output_file, channels)]
  | Print _ => []
  end.

Definition remix_outputs (evs : list event) : list str :=
  map fst (flat_map remix_of evs).

Definition remix_channels (evs : list event) : list (list Z) :=
  map snd (flat_map remix_of evs).

Definition sum_list (l : list Z) : Z := fold_right Z.add 0 l.

(** [groups] cut [start .. stop - 1] into consecutive non-empty ranges. *)
Fixpoint partitions (start : Z) (groups : list (list Z)) (stop : Z) : Prop :=
  match groups with
  | [] => start = stop
  | g :: rest =>
      exists size, 1 <= size /\ g = range start (start + size)
                   /\ partitions (start + size) rest stop
  end.

(** The claimed reading of the extension split: at the rightmost ['.'] of
    the path, wherever it stands. *)
Definition split_rightmost_dot (p : str) : str * str :=
  let i := rfind p 46%N in
  if i <? 0 then (p, []) else (firstn (Z.to_nat i) p, skipn (Z.to_nat i) p).

(** What may follow a decimal numeral inside a label: nothing, or a
    character that is not a digit. *)
Definition stops (r : str) : Prop :=
  match r with
  | [] => True
  | c :: _ => is_ascii_digit c = false
  end.

(** The claimed reading of the syntax check: [^[0-9]+$]. *)
Definition ascii_digits_only (s : str) : bool :=
  match s with
  | [] => false
  | _ => forallb is_ascii_digit s
  end.

Section Notions.
Context {RT : Runtime}.

(** The digit the pattern holds for the next group, the size after clamping,
    and the index the body leaves, for a pattern whose characters have the
    values [ds]. *)
Definition raw_size (ds : list Z) (pattern_index : Z) : Z :=
  if pattern_index <? len ds then nth (Z.to_nat pattern_index) ds 0
  else last ds 0.

Definition clamp (group_size remaining_channels : Z) : Z :=
  if group_size >? remaining_channels then 1 else group_size.

Definition next_size (ds : list Z) (pattern_index remaining_channels : Z) : Z :=
  clamp (raw_size ds pattern_index) remaining_channels.

(** After one iteration that chose [group_size]. *)
Definition advance (st : loop_state) (group_size pattern_index : Z) : loop_state :=
  mkLoop (channel_start st + group_size) (remaining_channels st - group_size)
    pattern_index.

Definition next_index (ds : list Z) (pattern_index : Z) : Z :=
  if pattern_index <? len ds then pattern_index + 1 else pattern_index.

Definition group_label (start size : Z) : str :=
  if size =? 1 then str_of_int start
  else str_of_int start ++ lit "-" ++ str_of_int (start + size - 1).

Definition output_path (input_file : str) (start size : Z) : str :=
  fst (splitext input_file) ++ lit "[" ++ group_label start size ++ lit "]"
    ++ snd (splitext input_file).

(** The groups, as (start, size), that [fuel] iterations produce, and whether
    the loop condition has become false by then. *)
Fixpoint plan (fuel : nat) (ds : list Z) (st : loop_state) : list (Z * Z) * bool :=
  if running st then
    match fuel with
    | O => ([], false)
    | S fuel' =>
        let size := next_size ds (pattern_index st) (remaining_channels st) in
        let '(l, fin) :=
          plan fuel' ds (advance st size (next_index ds (pattern_index st))) in
        ((channel_start st, size) :: l, fin)
    end
  else ([], true).

(** The choice of the next group size, as both loop bodies begin with it:
    the size read from the pattern and the index afterwards. *)
Definition select_size (grouping_pattern : str) (pattern_index : Z) : M (Z * Z) :=
  if pattern_index <? len grouping_pattern then
    c <- getitem grouping_pattern pattern_index ;;
    group_size <- int c ;;
    ret (group_size, pattern_index + 1)
  else
    c <- getitem grouping_pattern (-1) ;;
    group_size <- int c ;;
    ret (group_size, pattern_index).

(** What [split_channels] prints up to and including the overwrite prompt
    when [existing] are the output files already there. *)
Definition overwrite_dialogue (input_file : str) (total_channels : Z)
    (existing : list str) : list event :=
  Print (MsgTotalChannels input_file total_channels)
    :: Print MsgAlreadyExist
    :: map (fun f => Print (MsgListed f)) existing ++ [Print MsgOverwritePrompt].

(** The state once one line of standard input has been consumed. *)
Definition answered (s : state) : state := mkState (world s) (tl (stdin s)).

Definition emit (input_file : str) (g : Z * Z) : list event :=
  [Remix input_file (output_path input_file (fst g) (snd g))
     (range (fst g) (fst g + snd g));
   Print (MsgSaved (output_path input_file (fst g) (snd g)))].

End Notions.

(** The output path as the claim words it, with the split at the rightmost
    ['.'] of the whole path. *)
Definition claimed_output_path (p : str) (start size : Z) : str :=
  fst (split_rightmost_dot p) ++ lit "[" ++ group_label start size ++ lit "]"
    ++ snd (split_rightmost_dot p).

(** *** A host to run the program on

    Files are listed with the channel count sox reports for them ([None]
    when it reports none).  Of the Unicode tables only the Arabic-Indic
    digits U+0660..U+0669 are present, and lower-casing leaves non-ASCII
    strings alone. *)

Record host := mkHost {
  host_sox : option str;
  host_files : list (str * option Z)
}.

Definition arabic_indic (c : codepoint) : bool :=
  ((0x660 <=? c) && (c <=? 0x669))%N.

Fixpoint host_lookup (files : list (str * option Z)) (p : str) : option (option Z) :=
  match files with
  | [] => None
  | (q, n) :: rest => if str_eqb q p then Some n else host_lookup rest p
  end.

Definition host_present (w : host) (p : str) : bool :=
  match host_lookup (host_files w) p with
  | Some _ => true
  | None => false
  end.

Definition host_runtime (nt : bool) : Runtime := {|
  uni_isdigit := arabic_indic;
  uni_decimal c := if arabic_indic c then Some (Z.of_N c - 0x660) else None;
  uni_lower s := s;
  os_name_nt := nt;
  World := host;
  sox_probe := host_sox;
  sox_on_path w := match host_sox w with Some _ => true | None => false end;
  sox_channels w _ input_file :=
    match host_lookup (host_files w) input_file with
    | Some n => n
    | None => None
    end;
  path_isfile := host_present;
  path_exists := host_present;
  sox_remix w _ output_file channels :=
    mkHost (host_sox w) ((output_file, Some (len channels)) :: host_files w)
|}.

Definition posix_host : Runtime := host_runtime false.

(** A host with sox on the search path, a 7-channel [track.wav] and a
    left-over [track[4-5].wav]; [answers] are the lines waiting on standard
    input. *)
Definition studio : host :=
  mkHost (Some (lit "sox"))
    [(lit "track.wav", Some 7); (lit "track[4-5].wav", Some 2)].

Definition at_studio (answers : list str) : @state posix_host :=
  @mkState posix_host studio answers.



(** A host on which sox reports no channels for [empty.wav]. *)
Definition silent : host := mkHost (Some (lit "sox")) [(lit "empty.wav", Some 0)].

(** The studio once [track.wav] has been split by the pattern [32]. *)
Definition studio_after : host :=
  mkHost (Some (lit "sox"))
    [(lit "track[6-7].wav", Some 2); (lit "track[4-5].wav", Some 2);
     (lit "track[1-3].wav", Some 3);
     (lit "track.wav", Some 7); (lit "track[4-5].wav", Some 2)].

(** A host whose Unicode tables also know the superscript digits U+00B2,
    U+00B3 and U+00B9: [str.isdigit] is true of them and [int] fails on
    them. *)
Definition superscript (c : codepoint) : bool :=
  ((c =? 0xB2) || (c =? 0xB3) || (c =? 0xB9))%N.

Definition typeset_host : Runtime := {|
  uni_isdigit c := arabic_indic c || superscript c;
  uni_decimal c := if arabic_indic c then Some (Z.of_N c - 0x660) else None;
  uni_lower s := s;
  os_name_nt := false;
  World := host;
  sox_probe := host_sox;
  sox_on_path w := match host_sox w with Some _ => true | None => false end;
  sox_channels w _ input_file :=
    match host_lookup (host_files w) input_file with
    | Some n => n
    | None => None
    end;
  path_isfile := host_present;
  path_exists := host_present;
  sox_remix w _ output_file channels :=
    mkHost (host_sox w) ((output_file, Some (len channels)) :: host_files w)
|}.

(** * Properties *)

(** Boolean comparisons on [Z] turned into propositions. *)
Ltac zbool :=
  repeat match goal with
  | H : (_ >? _) = true |- _ => apply Z.gtb_lt in H
  | H : (_ >? _) = false |- _ => rewrite Z.gtb_ltb in H; apply Z.ltb_ge in H
  | H : (_ <? _) = true |- _ => apply Z.ltb_lt in H
  | H : (_ <? _) = false |- _ => apply Z.ltb_ge in H
  | H : (_ <=? _) = true |- _ => apply Z.leb_le in H
  | H : (_ <=? _) = false |- _ => apply Z.leb_gt in H
  | H : (_ =? _) = true |- _ => apply Z.eqb_eq in H
  | H : (_ =? _) = false |- _ => apply Z.eqb_neq in H
  end.

(** ** The monad and the loop combinator *)

Section MonadFacts.
Context {RT : Runtime}.

Lemma bind_ret_l {A B} (a : A) (k : A -> M B) (s : state) :
  bind (ret a) k s = k a s.
Proof.
  unfold bind, ret. destruct (k a s) as [out r]. reflexivity.
Qed.

Lemma bind_value {A B} (m : M A) (k : A -> M B) s out a s' :
  m s = (out, Ret a s') ->
  bind m k s = (out ++ fst (k a s'), snd (k a s')).
Proof.
  intros H. unfold bind. rewrite H. destruct (k a s'); reflexivity.
Qed.

Lemma bind_exc {A B} (m : M A) (k : A -> M B) s out e s' :
  m s = (out, Exc e s') -> bind m k s = (out, Exc e s').
Proof.
  intros H. unfold bind. rewrite H. reflexivity.
Qed.

Lemma bind_fuel {A B} (m : M A) (k : A -> M B) s out :
  m s = (out, Fuel) -> bind m k s = (out, Fuel).
Proof.
  intros H. unfold bind. rewrite H. reflexivity.
Qed.

Lemma bind_ext {A B} (m : M A) (k k' : A -> M B) s :
  (forall a s1, k a s1 = k' a s1) -> bind m k s = bind m k' s.
Proof.
  intros H. unfold bind. destruct (m s) as [out [a s1|e s1|]]; try reflexivity.
  rewrite H. reflexivity.
Qed.

Lemma while_done {St} fuel (cond : St -> bool) body x s :
  cond x = false -> while fuel cond body x s = ([], Ret x s).
Proof.
  intros H. destruct fuel; simpl; rewrite H; reflexivity.
Qed.

Lemma while_out {St} (cond : St -> bool) body x s :
  cond x = true -> while 0 cond body x s = ([], Fuel).
Proof.
  intros H. simpl. rewrite H. reflexivity.
Qed.

Lemma while_step {St} fuel (cond : St -> bool) body x :
  cond x = true ->
  while (S fuel) cond body x = bind (body x) (while fuel cond body).
Proof.
  intros H. simpl. rewrite H. reflexivity.
Qed.

End MonadFacts.

(** ** One iteration of the partition loops *)

Section Bodies.
Context {RT : Runtime}.

(** Choosing the group size prints nothing and leaves the state alone; it
    either yields a size and an index or raises. *)
Lemma select_size_cases P idx :
  (exists d i, forall s, select_size P idx s = ([], Ret (d, i) s)) \/
  (exists e, forall s, select_size P idx s = ([], Exc e s)).
Proof.
  unfold select_size, getitem, int, lift_opt.
  destruct (idx <? len P).
  - destruct (((if idx <? 0 then idx + len P else idx) <? 0)
              || (len P <=? (if idx <? 0 then idx + len P else idx))).
    + right. eexists. reflexivity.
    + destruct (nth_error P (Z.to_nat (if idx <? 0 then idx + len P else idx)))
        as [c|]; [|right; eexists; reflexivity].
      destruct (int_of_char c) as [d|] eqn:E.
      * left. exists d, (idx + 1). intros s. unfold bind, ret. cbn. rewrite E.
        reflexivity.
      * right. exists ValueError. intros s. unfold bind, ret, raise. cbn.
        rewrite E. reflexivity.
  - destruct (((if -1 <? 0 then -1 + len P else -1) <? 0)
              || (len P <=? (if -1 <? 0 then -1 + len P else -1))).
    + right. eexists. reflexivity.
    + destruct (nth_error P (Z.to_nat (if -1 <? 0 then -1 + len P else -1)))
        as [c|]; [|right; eexists; reflexivity].
      destruct (int_of_char c) as [d|] eqn:E.
      * left. exists d, idx. intros s. unfold bind, ret. cbn. rewrite E.
        reflexivity.
      * right. exists ValueError. intros s. unfold bind, ret, raise. cbn.
        rewrite E. reflexivity.
Qed.

Lemma split_body_select input P st s :
  split_body input P st s =
  bind (select_size P (pattern_index st)) (fun sel =>
    let size := clamp (fst sel) (remaining_channels st) in
    run_remix input (output_path input (channel_start st) size)
      (range (channel_start st) (channel_start st + size)) ;;
    print (MsgSaved (output_path input (channel_start st) size)) ;;
    ret (advance st size (snd sel))) s.
Proof.
  unfold split_body, output_path, group_label, clamp, advance.
  fold (select_size P (pattern_index st)).
  apply bind_ext. intros [d i] s1. cbn [fst snd].
  destruct (splitext input) as [base ext]. reflexivity.
Qed.

Lemma split_body_ret input P st s d i :
  select_size P (pattern_index st) s = ([], Ret (d, i) s) ->
  split_body input P st s =
  (emit input (channel_start st, clamp d (remaining_channels st)),
   Ret (advance st (clamp d (remaining_channels st)) i)
     (mkState
        (sox_remix (world s) input
           (output_path input (channel_start st) (clamp d (remaining_channels st)))
           (range (channel_start st)
              (channel_start st + clamp d (remaining_channels st))))
        (stdin s))).
Proof.
  intros H. rewrite split_body_select. unfold bind. rewrite H. reflexivity.
Qed.

Lemma split_body_exc input P st s e :
  select_size P (pattern_index st) s = ([], Exc e s) ->
  split_body input P st s = ([], Exc e s).
Proof.
  intros H. rewrite split_body_select. unfold bind. rewrite H. reflexivity.
Qed.

Lemma check_body_select input P st s :
  Splitter.check_body input P st s =
  bind (select_size P (pattern_index (check_loop st))) (fun sel =>
    let size := clamp (fst sel) (remaining_channels (check_loop st)) in
    let out := output_path input (channel_start (check_loop st)) size in
    ret (mkCheck (advance (check_loop st) size (snd sel))
           (existing_files st ++ filter (path_exists (world s)) [out]))) s.
Proof.
  unfold Splitter.check_body, output_path, group_label, clamp, advance.
  fold (select_size P (pattern_index (check_loop st))).
  destruct (select_size_cases P (pattern_index (check_loop st)))
    as [(d & i & H)|(e & H)]; unfold bind; rewrite H; [|reflexivity].
  cbn [fst snd]. destruct (splitext input) as [base ext]. cbn [fst snd].
  unfold ask, ret. cbn.
  match goal with |- context [path_exists (world s) ?o] =>
    destruct (path_exists (world s) o) end; cbn; try rewrite app_nil_r; reflexivity.
Qed.

Lemma check_body_ret input P st s d i :
  select_size P (pattern_index (check_loop st)) s = ([], Ret (d, i) s) ->
  Splitter.check_body input P st s =
  ([], Ret (mkCheck
              (advance (check_loop st)
                 (clamp d (remaining_channels (check_loop st))) i)
              (existing_files st ++
               filter (path_exists (world s))
                 [output_path input (channel_start (check_loop st))
                    (clamp d (remaining_channels (check_loop st)))])) s).
Proof.
  intros H. rewrite check_body_select. unfold bind. rewrite H. reflexivity.
Qed.

Lemma check_body_exc input P st s e :
  select_size P (pattern_index (check_loop st)) s = ([], Exc e s) ->
  Splitter.check_body input P st s = ([], Exc e s).
Proof.
  intros H. rewrite check_body_select. unfold bind. rewrite H. reflexivity.
Qed.

End Bodies.

(** ** Reading the sox invocations off the events *)

Section Events.
Context {RT : Runtime}.

Lemma remix_outputs_app a b :
  remix_outputs (a ++ b) = remix_outputs a ++ remix_outputs b.
Proof.
  unfold remix_outputs. rewrite flat_map_app, map_app. reflexivity.
Qed.

Lemma remix_channels_app a b :
  remix_channels (a ++ b) = remix_channels a ++ remix_channels b.
Proof.
  unfold remix_channels. rewrite flat_map_app, map_app. reflexivity.
Qed.

Lemma remix_outputs_emit input l :
  remix_outputs (flat_map (emit input) l) =
  map (fun g => output_path input (fst g) (snd g)) l.
Proof.
  induction l as [|g l IH]; [reflexivity|].
  cbn [flat_map]. rewrite remix_outputs_app, IH. reflexivity.
Qed.

Lemma remix_channels_emit input l :
  remix_channels (flat_map (emit input) l) =
  map (fun g => range (fst g) (fst g + snd g)) l.
Proof.
  induction l as [|g l IH]; [reflexivity|].
  cbn [flat_map]. rewrite remix_channels_app, IH. reflexivity.
Qed.

End Events.

(** ** The pre-flight loop against the writing loop *)

Section Preflight.
Context {RT : Runtime}.

Lemma loops_agree input P fuel : forall st ex s1 s2,
  fst (while fuel (fun c => running (check_loop c)) (Splitter.check_body input P)
         (mkCheck st ex) s1) = [] /\
  match snd (while fuel (fun c => running (check_loop c))
               (Splitter.check_body input P) (mkCheck st ex) s1),
        snd (while fuel running (split_body input P) st s2) with
  | Ret c s1', Ret w _ =>
      s1' = s1 /\ check_loop c = w /\
      existing_files c =
        ex ++ filter (path_exists (world s1))
                (remix_outputs (fst (while fuel running (split_body input P) st s2)))
  | Exc e s1', Exc e' _ => e = e' /\ s1' = s1
  | Fuel, Fuel => True
  | _, _ => False
  end.
Proof.
  induction fuel as [|fuel IH]; intros st ex s1 s2.
  - destruct (running st) eqn:R.
    + rewrite !while_out by exact R. cbn. auto.
    + rewrite !while_done by exact R. cbn. rewrite app_nil_r. auto.
  - destruct (running st) eqn:R.
    2:{ rewrite !while_done by exact R. cbn. rewrite app_nil_r. auto. }
    rewrite (while_step fuel (fun c => running (check_loop c))) by exact R.
    rewrite (while_step fuel running) by exact R.
    destruct (select_size_cases P (pattern_index st)) as [(d & i & H)|(e & H)].
    + rewrite (bind_value _ _ _ _ _ _ (check_body_ret input P (mkCheck st ex) s1 d i (H s1))).
      rewrite (bind_value _ _ _ _ _ _ (split_body_ret input P st s2 d i (H s2))).
      cbn [fst snd check_loop existing_files app].
      match goal with |- context [while fuel running _ ?st' ?s2'] =>
        specialize (IH st'
          (ex ++ filter (path_exists (world s1))
             [output_path input (channel_start st) (clamp d (remaining_channels st))])
          s1 s2')
      end.
      destruct IH as [IH1 IH2]. split; [exact IH1|].
      match goal with |- context [snd (while fuel ?c ?b ?x s1)] =>
        destruct (snd (while fuel c b x s1)) as [c1 s1'|e1 s1'|] end;
      match goal with |- context [snd (while fuel running ?b ?x ?s)] =>
        destruct (snd (while fuel running b x s)) as [w2 s2'|e2 s2'|] end;
        try contradiction; auto.
      destruct IH2 as (-> & -> & E). repeat split.
      rewrite E, <- app_assoc. f_equal.
      rewrite remix_outputs_app, filter_app. reflexivity.
    + rewrite (bind_exc _ _ _ _ _ _ (check_body_exc input P (mkCheck st ex) s1 e (H s1))).
      rewrite (bind_exc _ _ _ _ _ _ (split_body_exc input P st s2 e (H s2))).
      cbn. auto.
Qed.

End Preflight.

(** ** Patterns made of digits *)

Section Digits.
Context {RT : Runtime}.

Lemma nth_pred_last (ds : list Z) :
  ds <> [] -> nth (length ds - 1) ds 0 = last ds 0.
Proof.
  induction ds as [|a [|b r] IH]; intros H; [congruence|reflexivity|].
  replace (length (a :: b :: r) - 1)%nat with (S (length (b :: r) - 1))%nat
    by (cbn [length]; lia).
  change (nth (S ?n) (a :: ?l) 0) with (nth n l 0).
  rewrite IH by discriminate. reflexivity.
Qed.

Lemma digits_length P (ds : list Z) :
  map int_of_char P = map Some ds -> len P = len ds.
Proof.
  intros E. unfold len. f_equal.
  rewrite <- (length_map int_of_char P), E, length_map. reflexivity.
Qed.

Lemma digits_nth P (ds : list Z) i c :
  map int_of_char P = map Some ds ->
  nth_error P i = Some c -> int_of_char c = Some (nth i ds 0).
Proof.
  intros E H.
  pose proof (map_nth_error int_of_char i P H) as H1.
  rewrite E in H1. rewrite nth_error_map in H1.
  destruct (nth_error ds i) as [d|] eqn:D; [|discriminate].
  cbn in H1. injection H1 as H1. rewrite <- H1.
  f_equal. symmetry. apply nth_error_nth. exact D.
Qed.

Lemma select_size_digits P ds idx s :
  map int_of_char P = map Some ds -> ds <> [] -> 0 <= idx ->
  select_size P idx s = ([], Ret (raw_size ds idx, next_index ds idx) s).
Proof.
  intros E Hne Hidx.
  pose proof (digits_length P ds E) as L.
  assert (Hlen : 0 < len ds).
  { unfold len. destruct ds; [congruence|]. cbn [length]. lia. }
  unfold select_size, raw_size, next_index, getitem. rewrite <- L.
  destruct (idx <? len P) eqn:C.
  - apply Z.ltb_lt in C.
    assert (H0 : (idx <? 0) = false) by (apply Z.ltb_ge; lia).
    assert (H1 : (len P <=? idx) = false) by (apply Z.leb_gt; lia).
    rewrite H0. cbv iota. rewrite H0, H1. cbn [orb].
    destruct (nth_error P (Z.to_nat idx)) as [c|] eqn:N.
    2:{ apply nth_error_None in N. unfold len in C. lia. }
    unfold bind, int, lift_opt, ret. rewrite (digits_nth P ds _ c E N). reflexivity.
  - apply Z.ltb_ge in C.
    change (-1 <? 0) with true. cbv iota.
    assert (H0 : (-1 + len P <? 0) = false) by (apply Z.ltb_ge; lia).
    assert (H1 : (len P <=? -1 + len P) = false) by (apply Z.leb_gt; lia).
    rewrite H0, H1. cbn [orb].
    destruct (nth_error P (Z.to_nat (-1 + len P))) as [c|] eqn:N.
    2:{ apply nth_error_None in N. unfold len in *. lia. }
    unfold bind, int, lift_opt, ret. rewrite (digits_nth P ds _ c E N).
    replace (Z.to_nat (-1 + len P)) with (length ds - 1)%nat
      by (rewrite L; unfold len; lia).
    rewrite nth_pred_last by exact Hne. reflexivity.
Qed.

End Digits.

(** ** The writing loop follows the plan *)

Section Plan.
Context {RT : Runtime}.

Lemma next_index_nonneg ds idx : 0 <= idx -> 0 <= next_index ds idx.
Proof.
  unfold next_index. destruct (idx <? len ds); lia.
Qed.

Lemma split_loop_plan input P ds :
  map int_of_char P = map Some ds -> ds <> [] ->
  forall fuel st s, 0 <= pattern_index st ->
    fst (while fuel running (split_body input P) st s)
      = flat_map (emit input) (fst (plan fuel ds st)) /\
    match snd (while fuel running (split_body input P) st s) with
    | Ret st' _ => snd (plan fuel ds st) = true /\ running st' = false
    | Exc _ _ => False
    | Fuel => snd (plan fuel ds st) = false
    end.
Proof.
  intros E Hne. induction fuel as [|fuel IH]; intros st s Hidx.
  - cbn [plan]. destruct (running st) eqn:R.
    + rewrite while_out by exact R. cbn. auto.
    + rewrite while_done by exact R. cbn. auto.
  - cbn [plan]. destruct (running st) eqn:R.
    2:{ rewrite while_done by exact R. cbn. auto. }
    rewrite while_step by exact R.
    pose proof (select_size_digits P ds (pattern_index st) s E Hne Hidx) as Hsel.
    rewrite (bind_value _ _ _ _ _ _ (split_body_ret input P st s _ _ Hsel)).
    fold (next_size ds (pattern_index st) (remaining_channels st)).
    match goal with |- context [while fuel running _ ?st' ?s'] =>
      specialize (IH st' s' (next_index_nonneg ds _ Hidx)) end.
    destruct IH as [IH1 IH2].
    destruct (plan fuel ds _) as [l fin] eqn:Pl.
    cbn [fst snd] in *. rewrite IH1. cbn [flat_map]. split; [reflexivity|].
    exact IH2.
Qed.

(** Arithmetic of the plan for digits that are at least 1. *)

Lemma raw_size_pos ds idx :
  ds <> [] -> Forall (fun d => 1 <= d) ds -> 0 <= idx -> 1 <= raw_size ds idx.
Proof.
  intros Hne Hall Hidx. unfold raw_size.
  rewrite Forall_forall in Hall. apply Hall.
  destruct (idx <? len ds) eqn:C.
  - apply nth_In. apply Z.ltb_lt in C. unfold len in C. lia.
  - destruct ds as [|a r]; [congruence|].
    destruct (exists_last (l := a :: r)) as (l' & x & Hx); [discriminate|].
    rewrite Hx, last_last. apply in_or_app. right. left. reflexivity.
Qed.

Lemma next_size_bounds ds idx rem :
  ds <> [] -> Forall (fun d => 1 <= d) ds -> 0 <= idx -> 0 < rem ->
  1 <= next_size ds idx rem <= rem.
Proof.
  intros Hne Hall Hidx Hrem. unfold next_size, clamp.
  pose proof (raw_size_pos ds idx Hne Hall Hidx).
  destruct (raw_size ds idx >? rem) eqn:C.
  - lia.
  - zbool. lia.
Qed.

Lemma plan_finishes ds :
  ds <> [] -> Forall (fun d => 1 <= d) ds ->
  forall fuel st, 0 <= pattern_index st ->
    remaining_channels st <= Z.of_nat fuel ->
    snd (plan fuel ds st) = true.
Proof.
  intros Hne Hall. induction fuel as [|fuel IH]; intros st Hidx Hrem.
  - cbn [plan]. destruct (running st) eqn:R; [|reflexivity].
    unfold running in R. zbool. lia.
  - cbn [plan]. destruct (running st) eqn:R; [|reflexivity].
    unfold running in R. zbool.
    pose proof (next_size_bounds ds (pattern_index st) (remaining_channels st)
                  Hne Hall Hidx R) as B.
    specialize (IH (advance st (next_size ds (pattern_index st) (remaining_channels st))
                      (next_index ds (pattern_index st)))).
    destruct (plan fuel ds _) as [l fin]. cbn [snd] in *.
    apply IH.
    + cbn. apply next_index_nonneg. exact Hidx.
    + cbn. lia.
Qed.

Lemma plan_partitions ds :
  ds <> [] -> Forall (fun d => 1 <= d) ds ->
  forall fuel st, 0 <= pattern_index st -> 0 <= remaining_channels st ->
    snd (plan fuel ds st) = true ->
    partitions (channel_start st)
      (map (fun g => range (fst g) (fst g + snd g)) (fst (plan fuel ds st)))
      (channel_start st + remaining_channels st).
Proof.
  intros Hne Hall. induction fuel as [|fuel IH]; intros st Hidx Hrem Hfin.
  - cbn [plan] in *. destruct (running st) eqn:R; [discriminate|].
    unfold running in R. cbn. zbool. lia.
  - cbn [plan] in *. destruct (running st) eqn:R.
    2:{ unfold running in R. cbn. zbool. lia. }
    unfold running in R. zbool.
    pose proof (next_size_bounds ds (pattern_index st) (remaining_channels st)
                  Hne Hall Hidx R) as B.
    specialize (IH (advance st (next_size ds (pattern_index st) (remaining_channels st))
                      (next_index ds (pattern_index st)))).
    destruct (plan fuel ds _) as [l fin]. cbn [fst snd map partitions] in *.
    exists (next_size ds (pattern_index st) (remaining_channels st)).
    split; [lia|]. split; [reflexivity|].
    replace (channel_start st + remaining_channels st)
      with (channel_start st + next_size ds (pattern_index st) (remaining_channels st)
            + (remaining_channels st
               - next_size ds (pattern_index st) (remaining_channels st))) by lia.
    apply IH; [apply next_index_nonneg; exact Hidx|cbn; lia|exact Hfin].
Qed.

Lemma range_shift a n m : forall k,
  map (fun i => a + Z.of_nat i) (seq (n + k) m)
  = map (fun i => a + Z.of_nat n + Z.of_nat i) (seq k m).
Proof.
  induction m as [|m IH]; intros k; [reflexivity|].
  cbn [seq map]. f_equal; [lia|].
  rewrite <- IH. rewrite Nat.add_succ_r. reflexivity.
Qed.

Lemma range_app a b c : a <= b -> b <= c -> range a b ++ range b c = range a c.
Proof.
  intros H1 H2. unfold range.
  replace (Z.to_nat (c - a)) with (Z.to_nat (b - a) + Z.to_nat (c - b))%nat by lia.
  rewrite seq_app, map_app. f_equal.
  rewrite <- (Nat.add_0_r (0 + Z.to_nat (b - a))).
  rewrite Nat.add_0_l. rewrite range_shift.
  apply map_ext. intros i. lia.
Qed.

Lemma partitions_concat groups : forall start stop,
  partitions start groups stop ->
  start <= stop /\ concat groups = range start stop /\
  sum_list (map len groups) = stop - start.
Proof.
  induction groups as [|g rest IH]; intros start stop H.
  - cbn in H. subst. cbn. unfold range. rewrite Z.sub_diag. cbn.
    repeat split; lia.
  - cbn in H. destruct H as (size & Hs & Hg & Hr).
    destruct (IH _ _ Hr) as (Hle & Hc & Hsum).
    cbn [concat map sum_list fold_right]. fold (sum_list (map len rest)).
    rewrite Hc, Hg, Hsum. split; [lia|]. split.
    + apply range_app; lia.
    + unfold range, len. rewrite length_map, length_seq. lia.
Qed.

End Plan.

(** ** Patterns of digits 1 to 9 *)

Section Partition.
Context {RT : Runtime}.

Lemma digits_ge1 (ds : list Z) :
  Forall (fun d => 1 <= d <= 9) ds -> Forall (fun d => 1 <= d) ds.
Proof.
  apply Forall_impl. intros d H. lia.
Qed.

Lemma split_loop_runs input P ds N fuel s :
  map int_of_char P = map Some ds -> ds <> [] ->
  Forall (fun d => 1 <= d) ds -> (Z.to_nat N <= fuel)%nat ->
  fst (split_loop fuel input P N s)
    = flat_map (emit input) (fst (plan fuel ds (mkLoop 1 N 0))) /\
  snd (plan fuel ds (mkLoop 1 N 0)) = true /\
  exists st' s', snd (split_loop fuel input P N s) = Ret st' s'.
Proof.
  intros E Hne Hall Hfuel. unfold split_loop.
  destruct (split_loop_plan input P ds E Hne fuel (mkLoop 1 N 0) s) as [H1 H2];
    [cbn; lia|].
  assert (Hfin : snd (plan fuel ds (mkLoop 1 N 0)) = true).
  { apply plan_finishes; try assumption; cbn; lia. }
  split; [exact H1|]. split; [exact Hfin|].
  destruct (snd (while fuel running (split_body input P) (mkLoop 1 N 0) s))
    as [st' s'|e s'|]; [eauto|contradiction|congruence].
Qed.

Lemma plan_count ds :
  ds <> [] -> Forall (fun d => 1 <= d) ds ->
  forall fuel st, 0 <= pattern_index st -> 0 <= remaining_channels st ->
    Z.of_nat (length (fst (plan fuel ds st))) <= remaining_channels st.
Proof.
  intros Hne Hall. induction fuel as [|fuel IH]; intros st Hidx Hrem.
  - cbn [plan]. destruct (running st); cbn; lia.
  - cbn [plan]. destruct (running st) eqn:R; [|cbn; lia].
    unfold running in R. zbool.
    pose proof (next_size_bounds ds (pattern_index st) (remaining_channels st)
                  Hne Hall Hidx R) as B.
    specialize (IH (advance st (next_size ds (pattern_index st) (remaining_channels st))
                      (next_index ds (pattern_index st)))).
    destruct (plan fuel ds _) as [l fin]. cbn [fst length] in *.
    assert (Z.of_nat (length l)
            <= remaining_channels st
               - next_size ds (pattern_index st) (remaining_channels st)).
    { apply IH; [apply next_index_nonneg; exact Hidx|cbn; lia]. }
    lia.
Qed.

Lemma skipn_nth_cons (l : list Z) : forall i,
  (i < length l)%nat -> skipn i l = nth i l 0 :: skipn (S i) l.
Proof.
  induction l as [|a l IH]; intros i H; [cbn in H; lia|].
  destruct i as [|i]; [reflexivity|].
  cbn [skipn nth]. apply IH. cbn in H. lia.
Qed.

Lemma sum_list_ge1 (l : list Z) :
  Forall (fun d => 1 <= d) l -> Z.of_nat (length l) <= sum_list l.
Proof.
  induction 1 as [|a l Ha Hl IH]; cbn [sum_list fold_right length]; [lia|].
  fold (sum_list l). lia.
Qed.

Lemma Forall_skipn (Q : Z -> Prop) (l : list Z) : forall i,
  Forall Q l -> Forall Q (skipn i l).
Proof.
  induction l as [|a l IH]; intros i H; [destruct i; exact H|].
  destruct i as [|i]; [exact H|]. cbn [skipn]. apply IH.
  inversion H; assumption.
Qed.

(** The sizes the plan gives: what is left of the pattern, then the last
    digit as long as it fits, then singles. *)
Lemma plan_sizes ds :
  ds <> [] -> Forall (fun d => 1 <= d) ds ->
  forall fuel st,
    0 <= pattern_index st <= len ds ->
    sum_list (skipn (Z.to_nat (pattern_index st)) ds) <= remaining_channels st ->
    remaining_channels st <= Z.of_nat fuel ->
    map snd (fst (plan fuel ds st))
    = skipn (Z.to_nat (pattern_index st)) ds
      ++ repeat (last ds 0)
           (Z.to_nat ((remaining_channels st
                       - sum_list (skipn (Z.to_nat (pattern_index st)) ds))
                      / last ds 0))
      ++ repeat 1
           (Z.to_nat ((remaining_channels st
                       - sum_list (skipn (Z.to_nat (pattern_index st)) ds))
                      mod last ds 0)).
Proof.
  intros Hne Hall.
  assert (Hd : 1 <= last ds 0).
  { pose proof (raw_size_pos ds (len ds) Hne Hall) as H. unfold raw_size in H.
    rewrite Z.ltb_irrefl in H. apply H. unfold len. lia. }
  induction fuel as [|fuel IH]; intros [start rem idx] Hidx Hsum Hfuel;
    cbn [pattern_index remaining_channels channel_start] in *.
  - assert (Hs := sum_list_ge1 _ (Forall_skipn _ ds (Z.to_nat idx) Hall)).
    cbn [plan]. unfold running. cbn [remaining_channels].
    destruct (rem >? 0) eqn:R; zbool; [lia|].
    assert (L0 : length (skipn (Z.to_nat idx) ds) = 0%nat) by lia.
    destruct (skipn (Z.to_nat idx) ds) as [|x r]; [|discriminate].
    cbn [sum_list fold_right] in *. replace (rem - 0) with 0 by lia.
    rewrite Z.div_0_l, Zmod_0_l by lia. reflexivity.
  - assert (Hs := sum_list_ge1 _ (Forall_skipn _ ds (Z.to_nat idx) Hall)).
    cbn [plan]. unfold running. cbn [remaining_channels pattern_index channel_start].
    destruct (rem >? 0) eqn:R; zbool.
    2:{ assert (L0 : length (skipn (Z.to_nat idx) ds) = 0%nat) by lia.
        destruct (skipn (Z.to_nat idx) ds) as [|x r]; [|discriminate].
        cbn [sum_list fold_right] in *. replace (rem - 0) with 0 by lia.
        rewrite Z.div_0_l, Zmod_0_l by lia. reflexivity. }
    unfold next_size, raw_size, next_index.
    destruct (idx <? len ds) eqn:C; zbool.
    + (* inside the pattern: the digit fits *)
      assert (Hlt : (Z.to_nat idx < length ds)%nat) by (unfold len in C; lia).
      rewrite (skipn_nth_cons ds _ Hlt) in *.
      cbn [sum_list fold_right] in Hsum, Hs |- *.
      fold (sum_list (skipn (S (Z.to_nat idx)) ds)) in Hsum, Hs |- *.
      set (d0 := nth (Z.to_nat idx) ds 0) in *.
      assert (Hd0 : 1 <= d0).
      { rewrite Forall_forall in Hall. apply Hall. apply nth_In. exact Hlt. }
      assert (Hs' := sum_list_ge1 _ (Forall_skipn _ ds (S (Z.to_nat idx)) Hall)).
      unfold clamp. destruct (d0 >? rem) eqn:G; zbool; [lia|].
      specialize (IH (advance (mkLoop start rem idx) d0 (idx + 1))).
      cbn [advance pattern_index remaining_channels channel_start] in IH.
      replace (Z.to_nat (idx + 1)) with (S (Z.to_nat idx)) in IH by lia.
      unfold advance. cbn [pattern_index remaining_channels channel_start].
      destruct (plan fuel ds _) as [l fin]. cbn [fst] in IH |- *.
      cbn [map snd]. rewrite IH by lia. cbn [app]. f_equal.
      replace (rem - d0 - sum_list (skipn (S (Z.to_nat idx)) ds))
        with (rem - (d0 + sum_list (skipn (S (Z.to_nat idx)) ds))) by lia.
      reflexivity.
    + (* past the pattern: the last digit, or a single *)
      assert (idx = len ds) by lia. subst idx.
      assert (Hall_skip : skipn (Z.to_nat (len ds)) ds = []).
      { apply skipn_all2. unfold len. lia. }
      rewrite Hall_skip in *. cbn [sum_list fold_right app] in *.
      rewrite Z.sub_0_r.
      set (d := last ds 0) in *.
      specialize (IH (advance (mkLoop start rem (len ds)) (clamp d rem) (len ds))).
      cbn [advance pattern_index remaining_channels channel_start] in IH.
      rewrite Hall_skip in IH. cbn [sum_list fold_right app] in IH.
      rewrite Z.sub_0_r in IH.
      unfold advance. cbn [pattern_index remaining_channels channel_start].
      destruct (plan fuel ds _) as [l fin]. cbn [fst] in IH |- *.
      cbn [map snd]. unfold clamp in *. destruct (d >? rem) eqn:G; zbool.
      * rewrite IH by lia.
        rewrite !Z.div_small, !Z.mod_small by lia. cbn [Z.to_nat repeat app].
        replace (Z.to_nat rem) with (S (Z.to_nat (rem - 1))) by lia.
        reflexivity.
      * rewrite IH by lia.
        replace rem with (rem - d + 1 * d) at 3 4 by lia.
        rewrite Z.div_add, Z_mod_plus_full by lia.
        assert (0 <= (rem - d) / d) by (apply Z.div_pos; lia).
        replace (Z.to_nat ((rem - d) / d + 1)) with (S (Z.to_nat ((rem - d) / d)))
          by lia.
        reflexivity.
Qed.

Lemma plan_sizes_pos ds :
  ds <> [] -> Forall (fun d => 1 <= d) ds ->
  forall fuel st, 0 <= pattern_index st ->
    Forall (fun g => 1 <= snd g) (fst (plan fuel ds st)).
Proof.
  intros Hne Hall. induction fuel as [|fuel IH]; intros st Hidx.
  - cbn [plan]. destruct (running st); constructor.
  - cbn [plan]. destruct (running st) eqn:R; [|constructor].
    unfold running in R. zbool.
    pose proof (next_size_bounds ds (pattern_index st) (remaining_channels st)
                  Hne Hall Hidx R) as B.
    specialize (IH (advance st (next_size ds (pattern_index st) (remaining_channels st))
                      (next_index ds (pattern_index st)))).
    destruct (plan fuel ds _) as [l fin]. cbn [fst] in *.
    constructor; [cbn; lia|]. apply IH. cbn. apply next_index_nonneg. exact Hidx.
Qed.

Lemma len_range a size : 0 <= size -> len (range a (a + size)) = size.
Proof.
  intros H. unfold len, range. rewrite length_map, length_seq. lia.
Qed.

End Partition.

(** C1. For a pattern of digits 1 to 9 and a channel count [N], the groups
    the partition loop hands to sox cut [1 .. N] exactly: the first starts
    at 1, each one is a non-empty range that starts right after the previous
    one, their concatenation is [1; ...; N] (so they are ascending and do
    not overlap) and their sizes add up to [N].  The loop returns within [N]
    iterations.  The pre-checks are not needed for this. *)
Theorem partition_loop_exact {RT : Runtime} input P ds N fuel s :
  map int_of_char P = map Some ds -> ds <> [] ->
  Forall (fun d => 1 <= d <= 9) ds -> 1 <= N -> (Z.to_nat N <= fuel)%nat ->
  (exists st' s', snd (split_loop fuel input P N s) = Ret st' s') /\
  partitions 1 (remix_channels (fst (split_loop fuel input P N s))) (N + 1) /\
  concat (remix_channels (fst (split_loop fuel input P N s))) = range 1 (N + 1) /\
  sum_list (map len (remix_channels (fst (split_loop fuel input P N s)))) = N.
Proof.
  intros E Hne Hall HN Hfuel. apply digits_ge1 in Hall.
  destruct (split_loop_runs input P ds N fuel s E Hne Hall Hfuel)
    as (Hev & Hfin & Hret).
  split; [exact Hret|].
  assert (Hp : partitions 1 (remix_channels (fst (split_loop fuel input P N s)))
                 (N + 1)).
  { rewrite Hev, remix_channels_emit.
    replace (N + 1) with (1 + N) by lia.
    apply (plan_partitions ds Hne Hall fuel (mkLoop 1 N 0)); [cbn; lia|cbn; lia|].
    exact Hfin. }
  split; [exact Hp|].
  destruct (partitions_concat _ _ _ Hp) as (_ & Hc & Hs).
  split; [exact Hc|]. rewrite Hs. lia.
Qed.

Lemma partition_loop_exact_witness :
  concat (remix_channels
            (fst (@split_loop posix_host 7 (lit "track.wav") (lit "32") 7
                    (@mkState posix_host
                       (mkHost (Some (lit "sox")) [(lit "track.wav", Some 7)]) []))))
  = range 1 8.
Proof.
  refine (proj1 (proj2 (proj2
    (@partition_loop_exact posix_host (lit "track.wav") (lit "32") [3; 2] 7 7%nat _
       _ _ _ _ _)))).
  - reflexivity.
  - discriminate.
  - repeat constructor; lia.
  - lia.
  - vm_compute. lia.
Defined.

(** C2. When the digits of the pattern (1 to 9) sum to at most [N], the
    sizes of the emitted groups are the digits of the pattern in order, none
    of them clamped, then the last digit as often as it still fits, then
    singles for what remains.  Pattern 32 on 7 channels gives the groups 1-3,
    4-5, 6-7, and pattern 3 on 4 channels gives 1-3 and 4. *)
Theorem sizes_follow_pattern {RT : Runtime} input P ds N fuel s :
  map int_of_char P = map Some ds -> ds <> [] ->
  Forall (fun d => 1 <= d <= 9) ds -> sum_list ds <= N ->
  (Z.to_nat N <= fuel)%nat ->
  map len (remix_channels (fst (split_loop fuel input P N s)))
  = ds ++ repeat (last ds 0) (Z.to_nat ((N - sum_list ds) / last ds 0))
       ++ repeat 1 (Z.to_nat ((N - sum_list ds) mod last ds 0))
  /\ (forall k, (7 <= k)%nat ->
        remix_channels (fst (split_loop k input (lit "32") 7 s))
        = [[1; 2; 3]; [4; 5]; [6; 7]])
  /\ (forall k, (4 <= k)%nat ->
        remix_channels (fst (split_loop k input (lit "3") 4 s)) = [[1; 2; 3]; [4]]).
Proof.
  intros E Hne Hall Hsum Hfuel. apply digits_ge1 in Hall. split; [|split].
  - destruct (split_loop_runs input P ds N fuel s E Hne Hall Hfuel) as (Hev & _ & _).
    rewrite Hev, remix_channels_emit, map_map.
    pose proof (plan_sizes_pos ds Hne Hall fuel (mkLoop 1 N 0)) as Hpos.
    rewrite (map_ext_in _ snd).
    + rewrite (plan_sizes ds Hne Hall fuel (mkLoop 1 N 0));
        cbn [pattern_index remaining_channels Z.to_nat skipn].
      * reflexivity.
      * unfold len. lia.
      * exact Hsum.
      * lia.
    + intros g Hg. apply len_range.
      assert (Hg1 : 1 <= snd g).
      { revert g Hg. apply Forall_forall. apply Hpos. cbn. lia. }
      lia.
  - intros k Hk.
    destruct (split_loop_runs input (lit "32") [3; 2] 7 k s) as (Hev & _ & _);
      [reflexivity|discriminate|repeat constructor; lia|lia|].
    rewrite Hev, remix_channels_emit.
    do 4 (destruct k as [|k]; [lia|]). reflexivity.
  - intros k Hk.
    destruct (split_loop_runs input (lit "3") [3] 4 k s) as (Hev & _ & _);
      [reflexivity|discriminate|repeat constructor; lia|lia|].
    rewrite Hev, remix_channels_emit.
    do 3 (destruct k as [|k]; [lia|]). reflexivity.
Qed.

Lemma sizes_follow_pattern_witness :
  map len
    (remix_channels
       (fst (@split_loop posix_host 7 (lit "track.wav") (lit "32") 7
               (@mkState posix_host
                  (mkHost (Some (lit "sox")) [(lit "track.wav", Some 7)]) []))))
  = [3; 2] ++ repeat 2 1 ++ repeat 1 0.
Proof.
  refine (proj1
    (@sizes_follow_pattern posix_host (lit "track.wav") (lit "32") [3; 2] 7 7%nat _
       _ _ _ _ _)).
  - reflexivity.
  - discriminate.
  - repeat constructor; lia.
  - vm_compute. discriminate.
  - vm_compute. lia.
Defined.

(** ** The pre-flight check as a whole *)

Section CheckFiles.
Context {RT : Runtime}.

Lemma check_files_exist_unfold fuel input P N s :
  sox_channels (world s) (lit "sox") input = Some N ->
  Splitter.check_files_exist fuel input P s =
  (fst (while fuel (fun c => running (check_loop c)) (Splitter.check_body input P)
          (mkCheck (mkLoop 1 N 0) []) s),
   match snd (while fuel (fun c => running (check_loop c))
                (Splitter.check_body input P) (mkCheck (mkLoop 1 N 0) []) s) with
   | Ret c s' => Ret (existing_files c) s'
   | Exc e s' => Exc e s'
   | Fuel => Fuel
   end).
Proof.
  intros H. unfold Splitter.check_files_exist, bind, ask, lift_opt. rewrite H.
  unfold ret. cbn [app].
  destruct (while fuel _ _ _ s) as [out [c s'|e s'|]]; cbn [fst snd];
    rewrite ?app_nil_r; reflexivity.
Qed.

(** The pre-flight check against the writing loop, for one channel count. *)
Lemma check_files_exist_agrees fuel input P N s s2 :
  sox_channels (world s) (lit "sox") input = Some N ->
  fst (Splitter.check_files_exist fuel input P s) = [] /\
  match snd (Splitter.check_files_exist fuel input P s),
        snd (split_loop fuel input P N s2) with
  | Ret existing s', Ret _ _ =>
      s' = s /\
      existing = filter (path_exists (world s))
                   (remix_outputs (fst (split_loop fuel input P N s2)))
  | Exc e s', Exc e' _ => e = e' /\ s' = s
  | Fuel, Fuel => True
  | _, _ => False
  end.
Proof.
  intros H. rewrite (check_files_exist_unfold fuel input P N s H). cbn [fst snd].
  unfold split_loop.
  destruct (loops_agree input P fuel (mkLoop 1 N 0) [] s s2) as [H1 H2].
  split; [exact H1|].
  destruct (snd (while fuel (fun c => running (check_loop c)) _ _ s))
    as [c s'|e s'|];
  destruct (snd (while fuel running _ _ s2)) as [w s2'|e2 s2'|];
    try contradiction; auto.
  destruct H2 as (-> & _ & Hex). split; [reflexivity|]. exact Hex.
Qed.

End CheckFiles.

(** C4. For a pattern of digits 1 to 9 and [N >= 1], every iteration of
    either partition loop lowers [remaining_channels] by at least 1 and
    never below 0; so the writing loop returns within [N] iterations with at
    most [N] groups emitted, and so does the pre-flight loop of
    [check_files_exist] for the same channel count. *)
Theorem partition_loops_terminate {RT : Runtime} input P ds N fuel s :
  map int_of_char P = map Some ds -> ds <> [] ->
  Forall (fun d => 1 <= d <= 9) ds -> 1 <= N -> (Z.to_nat N <= fuel)%nat ->
  (forall st s1, running st = true -> 0 <= pattern_index st ->
     exists evs st' s', split_body input P st s1 = (evs, Ret st' s') /\
       0 <= remaining_channels st' <= remaining_channels st - 1) /\
  (forall c s1, running (check_loop c) = true -> 0 <= pattern_index (check_loop c) ->
     exists c', Splitter.check_body input P c s1 = ([], Ret c' s1) /\
       0 <= remaining_channels (check_loop c')
         <= remaining_channels (check_loop c) - 1) /\
  (exists st' s', snd (split_loop fuel input P N s) = Ret st' s') /\
  Z.of_nat (length (remix_outputs (fst (split_loop fuel input P N s)))) <= N /\
  (sox_channels (world s) (lit "sox") input = Some N ->
   exists existing, Splitter.check_files_exist fuel input P s = ([], Ret existing s)).
Proof.
  intros E Hne Hall HN Hfuel. apply digits_ge1 in Hall.
  destruct (split_loop_runs input P ds N fuel s E Hne Hall Hfuel)
    as (Hev & Hfin & Hret).
  split; [|split; [|split; [|split]]].
  - intros st s1 R Hidx.
    pose proof (select_size_digits P ds (pattern_index st) s1 E Hne Hidx) as Hsel.
    rewrite (split_body_ret input P st s1 _ _ Hsel).
    do 3 eexists. split; [reflexivity|].
    fold (next_size ds (pattern_index st) (remaining_channels st)).
    unfold running in R. zbool.
    pose proof (next_size_bounds ds (pattern_index st) (remaining_channels st)
                  Hne Hall Hidx R).
    cbn. lia.
  - intros c s1 R Hidx.
    pose proof (select_size_digits P ds (pattern_index (check_loop c)) s1 E Hne Hidx)
      as Hsel.
    rewrite (check_body_ret input P c s1 _ _ Hsel).
    eexists. split; [reflexivity|].
    fold (next_size ds (pattern_index (check_loop c))
            (remaining_channels (check_loop c))).
    unfold running in R. zbool.
    pose proof (next_size_bounds ds (pattern_index (check_loop c))
                  (remaining_channels (check_loop c)) Hne Hall Hidx R).
    cbn. lia.
  - exact Hret.
  - rewrite Hev, remix_outputs_emit, length_map.
    apply (plan_count ds Hne Hall fuel (mkLoop 1 N 0)); cbn; lia.
  - intros Hq.
    destruct (check_files_exist_agrees fuel input P N s s Hq) as [H1 H2].
    destruct Hret as (st' & s' & Hret). rewrite Hret in H2.
    destruct (Splitter.check_files_exist fuel input P s) as [out r].
    cbn [fst snd] in *. subst out.
    destruct r as [existing s1|e s1|]; try contradiction.
    destruct H2 as [-> _]. eexists. reflexivity.
Qed.

Lemma partition_loops_terminate_witness :
  exists existing,
    @Splitter.check_files_exist posix_host 7 (lit "track.wav") (lit "32")
      (@mkState posix_host
         (mkHost (Some (lit "sox")) [(lit "track.wav", Some 7)]) [])
    = ([], Ret existing
             (@mkState posix_host
                (mkHost (Some (lit "sox")) [(lit "track.wav", Some 7)]) [])).
Proof.
  refine (proj2 (proj2 (proj2 (proj2
    (@partition_loops_terminate posix_host (lit "track.wav") (lit "32") [3; 2] 7
       7%nat _ _ _ _ _ _)))) _).
  - reflexivity.
  - discriminate.
  - repeat constructor; lia.
  - lia.
  - vm_compute. lia.
  - reflexivity.
Defined.

(** C7. For one input file, pattern and channel count, the pre-flight check
    of [check_files_exist] and the writing loop of [split_channels] walk the
    same partition: the check prints nothing, leaves the state alone and
    returns, in order, exactly those paths handed to sox by the writing loop
    that exist beforehand; a file is listed for the overwrite prompt if and
    only if the split would write it and it exists.  When one loop raises or
    does not return, so does the other, with the same exception.  This holds
    for every pattern, digits or not. *)
Theorem preflight_enumerates_written_paths {RT : Runtime} fuel input P N s s2 :
  sox_channels (world s) (lit "sox") input = Some N ->
  fst (Splitter.check_files_exist fuel input P s) = [] /\
  match snd (Splitter.check_files_exist fuel input P s),
        snd (split_loop fuel input P N s2) with
  | Ret existing s', Ret _ _ =>
      s' = s /\
      existing = filter (path_exists (world s))
                   (remix_outputs (fst (split_loop fuel input P N s2))) /\
      (forall f, In f existing <->
         In f (remix_outputs (fst (split_loop fuel input P N s2)))
         /\ path_exists (world s) f = true)
  | Exc e s', Exc e' _ => e = e' /\ s' = s
  | Fuel, Fuel => True
  | _, _ => False
  end.
Proof.
  intros H. destruct (check_files_exist_agrees fuel input P N s s2 H) as [H1 H2].
  split; [exact H1|].
  destruct (snd (Splitter.check_files_exist fuel input P s)) as [existing s'|e s'|];
  destruct (snd (split_loop fuel input P N s2)) as [w s2'|e2 s2'|];
    try contradiction; auto.
  destruct H2 as [Hs Hex]. split; [exact Hs|]. split; [exact Hex|].
  intros f. rewrite Hex. apply filter_In.
Qed.

Lemma preflight_enumerates_written_paths_witness :
  fst (@Splitter.check_files_exist posix_host 7 (lit "track.wav") (lit "32")
         (at_studio [])) = [] /\
  match snd (@Splitter.check_files_exist posix_host 7 (lit "track.wav") (lit "32")
               (at_studio [])),
        snd (@split_loop posix_host 7 (lit "track.wav") (lit "32") 7 (at_studio []))
  with
  | Ret existing s', Ret _ _ =>
      s' = at_studio [] /\
      existing = filter (@path_exists posix_host studio)
                   (remix_outputs
                      (fst (@split_loop posix_host 7 (lit "track.wav") (lit "32") 7
                              (at_studio [])))) /\
      (forall f, In f existing <->
         In f (remix_outputs
                 (fst (@split_loop posix_host 7 (lit "track.wav") (lit "32") 7
                         (at_studio []))))
         /\ @path_exists posix_host studio f = true)
  | Exc e s', Exc e' _ => e = e' /\ s' = at_studio []
  | Fuel, Fuel => True
  | _, _ => False
  end.
Proof.
  exact (@preflight_enumerates_written_paths posix_host 7 (lit "track.wav")
           (lit "32") 7 (at_studio []) (at_studio []) eq_refl).
Defined.

(** ** Validation *)

Section Validation.
Context {RT : Runtime}.

Lemma sum_digits_digits P : forall ds acc s,
  map int_of_char P = map Some ds ->
  sum_digits acc P s = ([], Ret (acc + sum_list ds) s).
Proof.
  induction P as [|c P IH]; intros [|d ds] acc s E; try discriminate.
  - cbn. rewrite Z.add_0_r. reflexivity.
  - cbn [map] in E. injection E as Hc E.
    cbn [sum_digits]. unfold bind, int, lift_opt. rewrite Hc. unfold ret.
    rewrite (IH ds (acc + d) s E). cbn [app sum_list fold_right].
    fold (sum_list ds). rewrite Z.add_assoc. reflexivity.
Qed.

Lemma validate_digits P ds N s :
  map int_of_char P = map Some ds ->
  validate_grouping_pattern P N s =
  if match ds with [d] => d =? N | _ => false end
  then ([Print (MsgSameAsTotal P N)], Ret false s)
  else if sum_list ds >? N
       then ([Print (MsgSumExceeds (sum_list ds) N)], Ret false s)
       else ([], Ret true s).
Proof.
  intros E. pose proof (sum_digits_digits P ds 0 s E) as Hsum.
  rewrite Z.add_0_l in Hsum.
  unfold validate_grouping_pattern.
  destruct P as [|c [|c2 r]]; destruct ds as [|d [|d2 r']]; try discriminate.
  - unfold bind at 1. unfold ret at 1. cbv iota beta.
    unfold bind at 1. rewrite Hsum.
    destruct (sum_list [] >? N); reflexivity.
  - cbn [map] in E. injection E as Hc.
    unfold bind at 1. unfold bind at 1. unfold int, lift_opt. rewrite Hc.
    unfold ret at 1. unfold ret at 1. cbn [app].
    destruct (d =? N).
    + reflexivity.
    + unfold bind at 1. rewrite Hsum.
      destruct (sum_list [d] >? N); reflexivity.
  - unfold bind at 1. unfold ret at 1. cbv iota beta.
    unfold bind at 1. rewrite Hsum.
    destruct (sum_list (d :: d2 :: r') >? N); reflexivity.
Qed.

Lemma splitter_rejected fuel cmd input P N s out :
  sox_channels (world s) cmd input = Some N ->
  validate_grouping_pattern P N s = (out, Ret false s) ->
  Splitter.split_channels fuel cmd input P s
  = (Print (MsgTotalChannels input N) :: out, Ret tt s).
Proof.
  intros Hq Hv. unfold Splitter.split_channels, bind, ask. rewrite Hq.
  unfold print at 1. rewrite Hv. cbn. rewrite app_nil_r. reflexivity.
Qed.

Lemma plain_rejected fuel input P N s out :
  sox_channels (world s) (lit "sox") input = Some N ->
  validate_grouping_pattern P N s = (out, Ret false s) ->
  Plain.split_channels fuel input P s
  = (Print (MsgTotalChannels input N) :: out, Ret tt s).
Proof.
  intros Hq Hv. unfold Plain.split_channels, bind, ask. rewrite Hq.
  unfold print at 1. rewrite Hv. cbn. rewrite app_nil_r. reflexivity.
Qed.

End Validation.

(** C3. For a pattern whose characters are digits, validation against [N]
    returns without touching the state, and it rejects if and only if the
    pattern is the single digit [N] or its digits sum to more than [N]; in
    every other case it passes and prints nothing.  On rejection
    [split_channels] (either file) prints the count and the reason, runs sox
    for no group and returns.  Pattern 4 and pattern 9 are rejected for 4
    channels. *)
Theorem validation_rejects_iff {RT : Runtime} P ds N s :
  map int_of_char P = map Some ds ->
  exists out b,
    validate_grouping_pattern P N s = (out, Ret b s) /\
    (b = false <-> ds = [N] \/ sum_list ds > N) /\
    (b = true -> out = []) /\
    remix_outputs out = [] /\
    (b = false -> forall fuel cmd input,
       sox_channels (world s) cmd input = Some N ->
       Splitter.split_channels fuel cmd input P s
       = (Print (MsgTotalChannels input N) :: out, Ret tt s)) /\
    (b = false -> forall fuel input,
       sox_channels (world s) (lit "sox") input = Some N ->
       Plain.split_channels fuel input P s
       = (Print (MsgTotalChannels input N) :: out, Ret tt s)) /\
    validate_grouping_pattern (lit "4") 4 s
    = ([Print (MsgSameAsTotal (lit "4") 4)], Ret false s) /\
    validate_grouping_pattern (lit "9") 4 s
    = ([Print (MsgSumExceeds 9 4)], Ret false s).
Proof.
  intros E. pose proof (validate_digits P ds N s E) as Hv.
  assert (Hnoop : match ds with [d] => d =? N | _ => false end = true <-> ds = [N]).
  { destruct ds as [|d [|d2 r]]; try (split; [discriminate|intros [=]]).
    split.
    - intros H. zbool. subst. reflexivity.
    - intros [= ->]. apply Z.eqb_refl. }
  assert (Hex4 : validate_grouping_pattern (lit "4") 4 s
                 = ([Print (MsgSameAsTotal (lit "4") 4)], Ret false s)).
  { rewrite (validate_digits (lit "4") [4] 4 s); reflexivity. }
  assert (Hex9 : validate_grouping_pattern (lit "9") 4 s
                 = ([Print (MsgSumExceeds 9 4)], Ret false s)).
  { rewrite (validate_digits (lit "9") [9] 4 s); reflexivity. }
  destruct (match ds with [d] => d =? N | _ => false end) eqn:Noop.
  - exists [Print (MsgSameAsTotal P N)], false.
    repeat split; try assumption; try discriminate; try reflexivity.
    + intros _. left. apply Hnoop. reflexivity.
    + intros _ fuel cmd input Hq. apply (splitter_rejected _ _ _ _ _ _ _ Hq Hv).
    + intros _ fuel input Hq. apply (plain_rejected _ _ _ _ _ _ Hq Hv).
  - destruct (sum_list ds >? N) eqn:G.
    + exists [Print (MsgSumExceeds (sum_list ds) N)], false.
      repeat split; try assumption; try discriminate; try reflexivity.
      * intros _. right. zbool. lia.
      * intros _ fuel cmd input Hq. apply (splitter_rejected _ _ _ _ _ _ _ Hq Hv).
      * intros _ fuel input Hq. apply (plain_rejected _ _ _ _ _ _ Hq Hv).
    + exists [], true.
      repeat split; try assumption; try discriminate; try reflexivity.
      intros [H|H].
      * apply Hnoop in H. congruence.
      * zbool. lia.
Qed.

Lemma validation_rejects_iff_witness :
  exists out b,
    @validate_grouping_pattern posix_host (lit "221") 5 (at_studio [])
    = (out, Ret b (at_studio [])) /\
    (b = false <-> [2; 2; 1] = [5] \/ sum_list [2; 2; 1] > 5) /\
    (b = true -> out = []) /\
    remix_outputs out = [] /\
    (b = false -> forall fuel cmd input,
       @sox_channels posix_host studio cmd input = Some 5 ->
       @Splitter.split_channels posix_host fuel cmd input (lit "221") (at_studio [])
       = (Print (MsgTotalChannels input 5) :: out, Ret tt (at_studio []))) /\
    (b = false -> forall fuel input,
       @sox_channels posix_host studio (lit "sox") input = Some 5 ->
       @Plain.split_channels posix_host fuel input (lit "221") (at_studio [])
       = (Print (MsgTotalChannels input 5) :: out, Ret tt (at_studio []))) /\
    @validate_grouping_pattern posix_host (lit "4") 4 (at_studio [])
    = ([Print (MsgSameAsTotal (lit "4") 4)], Ret false (at_studio [])) /\
    @validate_grouping_pattern posix_host (lit "9") 4 (at_studio [])
    = ([Print (MsgSumExceeds 9 4)], Ret false (at_studio [])).
Proof.
  exact (@validation_rejects_iff posix_host (lit "221") [2; 2; 1] 5 (at_studio [])
           eq_refl).
Defined.

(** ** A pattern that ends in the digit 0 *)

Section ZeroDigit.
Context {RT : Runtime}.

Lemma sum_list_nonneg (l : list Z) : Forall (fun d => 0 <= d) l -> 0 <= sum_list l.
Proof.
  induction 1 as [|a l Ha Hl IH]; cbn [sum_list fold_right]; [lia|].
  fold (sum_list l). lia.
Qed.

(** Once the digits left in the pattern sum to less than the channels left
    and the last digit is 0, no amount of fuel ends the plan. *)
Lemma plan_stalls ds :
  Forall (fun d => 0 <= d) ds -> last ds 0 = 0 ->
  forall fuel st, 0 <= pattern_index st <= len ds ->
    sum_list (skipn (Z.to_nat (pattern_index st)) ds) < remaining_channels st ->
    snd (plan fuel ds st) = false.
Proof.
  intros Hall Hlast. induction fuel as [|fuel IH]; intros [start rem idx] Hidx Hsum;
    cbn [pattern_index remaining_channels channel_start] in *;
    assert (Hs := sum_list_nonneg _ (Forall_skipn _ ds (Z.to_nat idx) Hall));
    cbn [plan]; unfold running; cbn [remaining_channels pattern_index channel_start];
    destruct (rem >? 0) eqn:R; zbool; try lia; [reflexivity|].
  unfold next_size, raw_size, next_index.
  destruct (idx <? len ds) eqn:C; zbool.
  - assert (Hlt : (Z.to_nat idx < length ds)%nat) by (unfold len in C; lia).
    rewrite (skipn_nth_cons ds _ Hlt) in *.
    cbn [sum_list fold_right] in Hsum, Hs.
    fold (sum_list (skipn (S (Z.to_nat idx)) ds)) in Hsum, Hs.
    set (d0 := nth (Z.to_nat idx) ds 0) in *.
    assert (Hd0 : 0 <= d0).
    { rewrite Forall_forall in Hall. apply Hall. apply nth_In. exact Hlt. }
    assert (Hs' := sum_list_nonneg _ (Forall_skipn _ ds (S (Z.to_nat idx)) Hall)).
    unfold clamp. destruct (d0 >? rem) eqn:G; zbool; [lia|].
    specialize (IH (advance (mkLoop start rem idx) d0 (idx + 1))).
    cbn [advance pattern_index remaining_channels channel_start] in IH.
    replace (Z.to_nat (idx + 1)) with (S (Z.to_nat idx)) in IH by lia.
    unfold advance. cbn [pattern_index remaining_channels channel_start].
    destruct (plan fuel ds _) as [l fin]. cbn [snd] in *. apply IH; lia.
  - assert (idx = len ds) by lia. subst idx. rewrite Hlast.
    unfold clamp. destruct (0 >? rem) eqn:G; zbool; [lia|].
    specialize (IH (advance (mkLoop start rem (len ds)) 0 (len ds))).
    cbn [advance pattern_index remaining_channels channel_start] in IH.
    unfold advance. cbn [pattern_index remaining_channels channel_start].
    destruct (plan fuel ds _) as [l fin]. cbn [snd] in *.
    apply IH; [lia|]. rewrite Z.sub_0_r. exact Hsum.
Qed.

Lemma splitter_stalls_in_check fuel cmd input P N s :
  sox_channels (world s) cmd input = Some N ->
  validate_grouping_pattern P N s = ([], Ret true s) ->
  Splitter.check_files_exist fuel input P s = ([], Fuel) ->
  Splitter.split_channels fuel cmd input P s
  = ([Print (MsgTotalChannels input N)], Fuel).
Proof.
  intros Hq Hv Hc. unfold Splitter.split_channels, bind, ask. rewrite Hq.
  unfold print at 1. rewrite Hv. cbn [negb]. rewrite Hc. reflexivity.
Qed.

Lemma plain_valid fuel input P N s :
  sox_channels (world s) (lit "sox") input = Some N ->
  validate_grouping_pattern P N s = ([], Ret true s) ->
  Plain.split_channels fuel input P s
  = (Print (MsgTotalChannels input N) :: fst (split_loop fuel input P N s),
     match snd (split_loop fuel input P N s) with
     | Ret _ s' => Ret tt s'
     | Exc e s' => Exc e s'
     | Fuel => Fuel
     end).
Proof.
  intros Hq Hv. unfold Plain.split_channels, bind, ask. rewrite Hq.
  unfold print at 1. rewrite Hv. cbn [negb app].
  destruct (split_loop fuel input P N s) as [out [st s'|e s'|]]; cbn [fst snd ret];
    rewrite ?app_nil_r; reflexivity.
Qed.

End ZeroDigit.

(** ** [main] up to the first input file *)

Section Main.
Context {RT : Runtime}.

Lemma for_each_cons {A} (a : A) l f s :
  for_each (a :: l) f s = bind (f a) (fun _ => for_each l f) s.
Proof. reflexivity. Qed.

Lemma sox_answers_sox w : sox_probe w = Some (lit "sox") -> sox_answers w = true.
Proof.
  intros H. unfold sox_answers. rewrite H. reflexivity.
Qed.

Lemma splitter_probe_ok s :
  sox_probe (world s) = Some (lit "sox") ->
  Splitter.check_sox_installed s = ([], Ret (lit "sox") s).
Proof.
  intros Hp. unfold Splitter.check_sox_installed, bind, ask.
  rewrite (sox_answers_sox _ Hp). reflexivity.
Qed.

Lemma plain_probe_ok s :
  sox_probe (world s) = Some (lit "sox") ->
  Plain.check_sox_installed s = ([], Ret tt s).
Proof.
  intros Hp. unfold Plain.check_sox_installed, bind, ask.
  rewrite (sox_answers_sox _ Hp). reflexivity.
Qed.

Lemma splitter_main_files fuel prog P input rest s :
  sox_probe (world s) = Some (lit "sox") -> isdigit P = true ->
  Splitter.main fuel (prog :: P :: input :: rest) s
  = for_each (input :: rest) (fun input_file =>
      isfile <- ask (fun w => path_isfile w input_file) ;;
      if negb isfile then print (MsgFileNotFound input_file)
      else Splitter.split_channels fuel (lit "sox") input_file P) s.
Proof.
  intros Hp Hd. unfold Splitter.main.
  unfold bind at 1. rewrite (splitter_probe_ok s Hp).
  cbn [app]. rewrite Hd. cbn [negb].
  destruct (for_each _ _ s) as [out r]. reflexivity.
Qed.

Lemma splitter_main_rejects fuel prog P input rest s :
  sox_probe (world s) = Some (lit "sox") -> isdigit P = false ->
  Splitter.main fuel (prog :: P :: input :: rest) s = ([Print MsgDigitsOnly], Ret tt s).
Proof.
  intros Hp Hd. unfold Splitter.main.
  unfold bind at 1. rewrite (splitter_probe_ok s Hp).
  cbn [app]. rewrite Hd. reflexivity.
Qed.

Lemma plain_main_files fuel prog P input rest s :
  sox_probe (world s) = Some (lit "sox") -> isdigit P = true ->
  Plain.main fuel (prog :: P :: input :: rest) s
  = for_each (input :: rest) (fun input_file =>
      isfile <- ask (fun w => path_isfile w input_file) ;;
      if negb isfile then print (MsgFileNotFound input_file)
      else Plain.split_channels fuel input_file P) s.
Proof.
  intros Hp Hd. unfold Plain.main.
  unfold bind at 1. rewrite (plain_probe_ok s Hp).
  cbn [app]. rewrite Hd. cbn [negb].
  destruct (for_each _ _ s) as [out r]. reflexivity.
Qed.

Lemma plain_main_rejects fuel prog P input rest s :
  sox_probe (world s) = Some (lit "sox") -> isdigit P = false ->
  Plain.main fuel (prog :: P :: input :: rest) s = ([Print MsgDigitsOnly], Ret tt s).
Proof.
  intros Hp Hd. unfold Plain.main.
  unfold bind at 1. rewrite (plain_probe_ok s Hp).
  cbn [app]. rewrite Hd. reflexivity.
Qed.

(** The first file of the batch, when it is a file. *)
Lemma first_file (g : str -> M unit) input rest s :
  path_isfile (world s) input = true ->
  for_each (input :: rest) (fun input_file =>
      isfile <- ask (fun w => path_isfile w input_file) ;;
      if negb isfile then print (MsgFileNotFound input_file)
      else g input_file) s
  = bind (g input) (fun _ =>
      for_each rest (fun input_file =>
        isfile <- ask (fun w => path_isfile w input_file) ;;
        if negb isfile then print (MsgFileNotFound input_file)
        else g input_file)) s.
Proof.
  intros Hf. rewrite for_each_cons. unfold bind at 1. unfold bind at 1.
  unfold ask at 1. rewrite Hf. cbn [negb app].
  unfold bind. destruct (g input s) as [out [a s'|e s'|]]; reflexivity.
Qed.

End Main.

(** C5 (the code against the claim).  A pattern of digits that ends in 0 and
    sums to less than the channel count is not rejected: it passes the
    digits-only check of [main] and the validation, and then the partition
    loop never returns, whatever the fuel.  In [channel-splitter.py] the
    stall is in the pre-flight check, after the channel count is printed; in
    [channelsplitter.py] it is in the writing loop. *)
Theorem zero_digit_accepted_then_stalls {RT : Runtime} (prog P : str) ds N
    (input : str) (rest : list str) s fuel :
  map int_of_char P = map Some ds -> isdigit P = true ->
  Forall (fun d => 0 <= d <= 9) ds -> last ds 0 = 0 -> sum_list ds < N ->
  sox_probe (world s) = Some (lit "sox") ->
  path_isfile (world s) input = true ->
  sox_channels (world s) (lit "sox") input = Some N ->
  validate_grouping_pattern P N s = ([], Ret true s) /\
  Splitter.main fuel (prog :: P :: input :: rest) s
  = ([Print (MsgTotalChannels input N)], Fuel) /\
  snd (Plain.main fuel (prog :: P :: input :: rest) s) = Fuel.
Proof.
  intros E Hd Hall Hlast Hsum Hp Hf Hq.
  assert (Hall0 : Forall (fun d => 0 <= d) ds).
  { revert Hall. apply Forall_impl. intros d H. lia. }
  assert (Hne : ds <> []).
  { intros ->. destruct P; [discriminate Hd|discriminate E]. }
  assert (Hv : validate_grouping_pattern P N s = ([], Ret true s)).
  { rewrite (validate_digits P ds N s E).
    assert (Hn : match ds with [d] => d =? N | _ => false end = false).
    { destruct ds as [|d [|d2 r]]; try reflexivity.
      cbn in Hsum. apply Z.eqb_neq. lia. }
    rewrite Hn. destruct (sum_list ds >? N) eqn:G; zbool; [lia|reflexivity]. }
  assert (Hloop : snd (split_loop fuel input P N s) = Fuel).
  { unfold split_loop.
    destruct (split_loop_plan input P ds E Hne fuel (mkLoop 1 N 0) s) as [_ H];
      [cbn; lia|].
    rewrite (plan_stalls ds Hall0 Hlast fuel (mkLoop 1 N 0)) in H.
    - destruct (snd (while fuel running (split_body input P) (mkLoop 1 N 0) s))
        as [st' s'|e s'|]; [destruct H; discriminate|contradiction|reflexivity].
    - cbn. unfold len. lia.
    - cbn. exact Hsum. }
  assert (Hcheck : Splitter.check_files_exist fuel input P s = ([], Fuel)).
  { destruct (check_files_exist_agrees fuel input P N s s Hq) as [H1 H2].
    rewrite Hloop in H2.
    destruct (Splitter.check_files_exist fuel input P s) as [out r].
    cbn [fst snd] in *. subst out.
    destruct r as [x s'|e s'|]; try contradiction. reflexivity. }
  split; [exact Hv|]. split.
  - rewrite (splitter_main_files fuel prog P input rest s Hp Hd).
    rewrite (first_file _ input rest s Hf).
    apply bind_fuel. apply splitter_stalls_in_check; assumption.
  - rewrite (plain_main_files fuel prog P input rest s Hp Hd).
    rewrite (first_file _ input rest s Hf).
    unfold bind. rewrite (plain_valid fuel input P N s Hq Hv). rewrite Hloop.
    reflexivity.
Qed.

Lemma zero_digit_accepted_then_stalls_witness :
  @validate_grouping_pattern posix_host (lit "20") 7 (at_studio [])
  = ([], Ret true (at_studio [])) /\
  @Splitter.main posix_host 1000
    [lit "channel-splitter.py"; lit "20"; lit "track.wav"] (at_studio [])
  = ([Print (MsgTotalChannels (lit "track.wav") 7)], Fuel) /\
  snd (@Plain.main posix_host 1000
         [lit "channelsplitter.py"; lit "20"; lit "track.wav"] (at_studio []))
  = Fuel.
Proof.
  pose proof (@zero_digit_accepted_then_stalls posix_host) as H.
  split; [|split].
  - refine (proj1 (H (lit "channel-splitter.py") (lit "20") [2; 0] 7 (lit "track.wav")
                     [] (at_studio []) 1000%nat _ _ _ _ _ _ _ _));
      try reflexivity; repeat constructor; lia.
  - refine (proj1 (proj2 (H (lit "channel-splitter.py") (lit "20") [2; 0] 7
                            (lit "track.wav") [] (at_studio []) 1000%nat
                            _ _ _ _ _ _ _ _)));
      try reflexivity; repeat constructor; lia.
  - refine (proj2 (proj2 (H (lit "channelsplitter.py") (lit "20") [2; 0] 7
                            (lit "track.wav") [] (at_studio []) 1000%nat
                            _ _ _ _ _ _ _ _)));
      try reflexivity; repeat constructor; lia.
Defined.

(** ** The syntax check of [main] *)

Section Syntax.
Context {RT : Runtime}.

Lemma ascii_digit_isdigit c : is_ascii_digit c = true -> isdigit_char c = true.
Proof.
  intros H. unfold isdigit_char.
  assert (Ha : is_ascii c = true).
  { unfold is_ascii_digit in H. unfold is_ascii.
    apply andb_true_iff in H. destruct H as [_ H].
    apply N.leb_le in H. apply N.ltb_lt. lia. }
  rewrite Ha. exact H.
Qed.

Lemma ascii_digits_isdigit P : ascii_digits_only P = true -> isdigit P = true.
Proof.
  destruct P as [|c P]; [discriminate|].
  unfold ascii_digits_only, isdigit. rewrite !forallb_forall.
  intros H x Hx. apply ascii_digit_isdigit. apply H. exact Hx.
Qed.

Lemma forallb_false {A} (f : A -> bool) l :
  forallb f l = false -> exists x, In x l /\ f x = false.
Proof.
  induction l as [|a l IH]; [discriminate|]. cbn [forallb].
  destruct (f a) eqn:Fa.
  - intros H. destruct (IH H) as (x & Hx & Hf). exists x. split; [right|]; assumption.
  - intros _. exists a. split; [left; reflexivity|exact Fa].
Qed.

Lemma isdigit_false_iff P :
  isdigit P = false <-> P = [] \/ exists c, In c P /\ isdigit_char c = false.
Proof.
  destruct P as [|c P].
  - split; [auto|reflexivity].
  - unfold isdigit. split.
    + intros H. right. apply forallb_false. exact H.
    + intros [H|(x & Hx & Hd)]; [discriminate|].
      destruct (forallb isdigit_char (c :: P)) eqn:F; [|reflexivity].
      rewrite forallb_forall in F. rewrite (F x Hx) in Hd. discriminate.
Qed.

Lemma ascii_digit_decodable c : is_ascii_digit c = true -> int_of_char c <> None.
Proof.
  intros H. unfold int_of_char.
  assert (Ha : is_ascii c = true).
  { unfold is_ascii_digit in H. unfold is_ascii.
    apply andb_true_iff in H. destruct H as [_ H].
    apply N.leb_le in H. apply N.ltb_lt. lia. }
  rewrite Ha, H. discriminate.
Qed.

Lemma decodable_digits P :
  (forall c, In c P -> int_of_char c <> None) ->
  exists ds, map int_of_char P = map Some ds.
Proof.
  induction P as [|c P IH]; intros H.
  - exists []. reflexivity.
  - destruct IH as [ds E]; [intros x Hx; apply H; right; exact Hx|].
    destruct (int_of_char c) as [d|] eqn:D.
    + exists (d :: ds). cbn [map]. rewrite D, E. reflexivity.
    + exfalso. apply (H c); [left; reflexivity|exact D].
Qed.

Lemma isdigit_ascii P :
  forallb is_ascii P = true -> isdigit P = ascii_digits_only P.
Proof.
  destruct P as [|c P]; [reflexivity|].
  unfold isdigit, ascii_digits_only. generalize (c :: P). clear c P.
  induction l as [|x l IH]; [reflexivity|]. cbn [forallb].
  intros H. apply andb_true_iff in H. destruct H as [Hx Hl].
  rewrite (IH Hl). unfold isdigit_char. rewrite Hx. reflexivity.
Qed.

End Syntax.

(** C9, as stated, fails: [str.isdigit] also accepts digits outside ASCII.
    The Arabic-Indic digit three (U+0663) does not match [^[0-9]+$], yet the
    program takes it as the pattern 3 and splits the 7-channel file into
    1-3, 4-6 and 7. *)
Lemma unicode_digit_pattern_accepted :
  ascii_digits_only [0x663%N] = false /\
  @isdigit posix_host [0x663%N] = true /\
  remix_channels
    (fst (@Splitter.main posix_host 7
            [lit "channel-splitter.py"; [0x663%N]; lit "track.wav"] (at_studio [])))
  = [[1; 2; 3]; [4; 5; 6]; [7]] /\
  remix_channels
    (fst (@Plain.main posix_host 7
            [lit "channelsplitter.py"; [0x663%N]; lit "track.wav"] (at_studio [])))
  = [[1; 2; 3]; [4; 5; 6]; [7]].
Proof.
  repeat split; vm_compute; reflexivity.
Qed.

(** C9, amended.  With sox installed and at least one input file, [main] of
    either file rejects a pattern argument for which [str.isdigit] is
    false, that is, one that is empty or holds a character that is no digit
    in the sense of [str.isdigit]: it prints the digits-only message and
    returns without looking at any input file.  Every argument that matches
    [^[0-9]+$] passes the check, and among arguments made of ASCII
    characters exactly those pass.  More generally an argument passes when
    [str.isdigit] holds of it and [int()] decodes each of its characters,
    as for the decimal digits outside ASCII: it then stands for a non-empty
    sequence of digit values, and [main] goes on to the input files. *)
Theorem syntax_check_on_decimal_digits {RT : Runtime} fuel (prog P input : str)
    (rest : list str) s :
  sox_probe (world s) = Some (lit "sox") ->
  (isdigit P = false <-> P = [] \/ exists c, In c P /\ isdigit_char c = false) /\
  (isdigit P = false ->
   Splitter.main fuel (prog :: P :: input :: rest) s = ([Print MsgDigitsOnly], Ret tt s)
   /\ Plain.main fuel (prog :: P :: input :: rest) s
      = ([Print MsgDigitsOnly], Ret tt s)) /\
  (ascii_digits_only P = true ->
   isdigit P = true /\ forall c, In c P -> int_of_char c <> None) /\
  (forallb is_ascii P = true -> (isdigit P = true <-> ascii_digits_only P = true)) /\
  (isdigit P = true -> (forall c, In c P -> int_of_char c <> None) ->
   (exists ds, ds <> [] /\ map int_of_char P = map Some ds)
   /\ Splitter.main fuel (prog :: P :: input :: rest) s
      = for_each (input :: rest) (fun input_file =>
          isfile <- ask (fun w => path_isfile w input_file) ;;
          if negb isfile then print (MsgFileNotFound input_file)
          else Splitter.split_channels fuel (lit "sox") input_file P) s
   /\ Plain.main fuel (prog :: P :: input :: rest) s
      = for_each (input :: rest) (fun input_file =>
          isfile <- ask (fun w => path_isfile w input_file) ;;
          if negb isfile then print (MsgFileNotFound input_file)
          else Plain.split_channels fuel input_file P) s).
Proof.
  intros Hp. split; [apply isdigit_false_iff|]. split; [|split; [|split]].
  - intros Hd. split.
    + apply (splitter_main_rejects fuel prog P input rest s Hp Hd).
    + apply (plain_main_rejects fuel prog P input rest s Hp Hd).
  - intros Ha. split; [apply ascii_digits_isdigit; exact Ha|].
    intros c Hc. apply ascii_digit_decodable.
    destruct P as [|x P]; [discriminate|].
    unfold ascii_digits_only in Ha. rewrite forallb_forall in Ha. apply Ha. exact Hc.
  - intros Ha. rewrite (isdigit_ascii P Ha). reflexivity.
  - intros Hd Hdec. split; [|split].
    + destruct (decodable_digits P Hdec) as [ds E]. exists ds. split; [|exact E].
      intros ->. destruct P; [discriminate Hd|discriminate E].
    + apply (splitter_main_files fuel prog P input rest s Hp Hd).
    + apply (plain_main_files fuel prog P input rest s Hp Hd).
Qed.

Lemma syntax_check_on_decimal_digits_witness :
  @Splitter.main posix_host 7
    [lit "channel-splitter.py"; lit "3x"; lit "track.wav"] (at_studio [])
  = ([Print MsgDigitsOnly], Ret tt (at_studio [])) /\
  @Plain.main posix_host 7
    [lit "channel-splitter.py"; lit "3x"; lit "track.wav"] (at_studio [])
  = ([Print MsgDigitsOnly], Ret tt (at_studio [])).
Proof.
  exact (proj1 (proj2
    (@syntax_check_on_decimal_digits posix_host 7 (lit "channel-splitter.py")
       (lit "3x") (lit "track.wav") [] (at_studio []) eq_refl)) eq_refl).
Defined.

(** ** The overwrite prompt *)

Section Prompt.
Context {RT : Runtime}.

Lemma str_eqb_eq a b : str_eqb a b = true <-> a = b.
Proof.
  unfold str_eqb. destruct (list_eq_dec N.eq_dec a b); split; congruence.
Qed.

Lemma for_each_listed l s :
  for_each l (fun file => print (MsgListed file)) s
  = (map (fun f => Print (MsgListed f)) l, Ret tt s).
Proof.
  induction l as [|a l IH]; [reflexivity|].
  cbn [for_each]. unfold bind. unfold print at 1. rewrite IH. reflexivity.
Qed.

Lemma remix_outputs_listed l :
  remix_outputs (map (fun f => Print (MsgListed f)) l) = [].
Proof.
  induction l as [|a l IH]; [reflexivity|]. exact IH.
Qed.

Lemma splitter_declined fuel cmd infile P N s e es r more :
  sox_channels (world s) cmd infile = Some N ->
  validate_grouping_pattern P N s = ([], Ret true s) ->
  Splitter.check_files_exist fuel infile P s = ([], Ret (e :: es) s) ->
  stdin s = r :: more ->
  str_eqb (lower r) (lit "y") = false ->
  Splitter.split_channels fuel cmd infile P s
  = (overwrite_dialogue infile N (e :: es) ++ [Print MsgExiting],
     Ret tt (answered s)).
Proof.
  intros Hq Hv Hc Hin Hr. unfold Splitter.split_channels, bind, ask. rewrite Hq.
  unfold print at 1. rewrite Hv. cbn [negb]. rewrite Hc.
  unfold print at 1. rewrite for_each_listed. unfold input. rewrite Hin.
  rewrite Hr. cbn [negb]. unfold print, ret. cbn [app].
  unfold overwrite_dialogue, answered. rewrite Hin. cbn [tl app].
  rewrite app_nil_r, <- app_assoc. reflexivity.
Qed.

Lemma splitter_accepted fuel cmd infile P N s e es r more :
  sox_channels (world s) cmd infile = Some N ->
  validate_grouping_pattern P N s = ([], Ret true s) ->
  Splitter.check_files_exist fuel infile P s = ([], Ret (e :: es) s) ->
  stdin s = r :: more ->
  str_eqb (lower r) (lit "y") = true ->
  Splitter.split_channels fuel cmd infile P s
  = (overwrite_dialogue infile N (e :: es)
       ++ fst (split_loop fuel infile P N (answered s)),
     match snd (split_loop fuel infile P N (answered s)) with
     | Ret _ s' => Ret tt s'
     | Exc x s' => Exc x s'
     | Fuel => Fuel
     end).
Proof.
  intros Hq Hv Hc Hin Hr. unfold Splitter.split_channels, bind, ask. rewrite Hq.
  unfold print at 1. rewrite Hv. cbn [negb]. rewrite Hc.
  unfold print at 1. rewrite for_each_listed. unfold input. rewrite Hin.
  rewrite Hr. cbn [negb]. unfold ret. cbn [app].
  unfold overwrite_dialogue, answered. rewrite Hin. cbn [tl app].
  destruct (split_loop fuel infile P N _) as [out [st s'|x s'|]]; cbn [fst snd];
    rewrite ?app_nil_r, <- ?app_assoc; reflexivity.
Qed.

End Prompt.

(** C10.  When the pre-flight check of [channel-splitter.py] has found
    existing output files and a reply [r] is read at the overwrite prompt,
    the file is processed if and only if [r.lower()] is exactly ["y"]: then
    the writing loop runs after the prompt; otherwise the program prints
    that it exits without changes, runs sox for no group, leaves the file
    system alone, and [main] carries on with the next input file.  The
    replies "yes", "Y es" and the empty line decline; "y" and "Y" accept. *)
Theorem overwrite_prompt_answer {RT : Runtime} fuel (prog P infile next : str)
    (rest : list str) N s (e : str) (es : list str) (r : str) (more : list str) :
  sox_probe (world s) = Some (lit "sox") -> isdigit P = true ->
  path_isfile (world s) infile = true ->
  sox_channels (world s) (lit "sox") infile = Some N ->
  validate_grouping_pattern P N s = ([], Ret true s) ->
  Splitter.check_files_exist fuel infile P s = ([], Ret (e :: es) s) ->
  stdin s = r :: more ->
  (lower r = lit "y" ->
   Splitter.split_channels fuel (lit "sox") infile P s
   = (overwrite_dialogue infile N (e :: es)
        ++ fst (split_loop fuel infile P N (answered s)),
      match snd (split_loop fuel infile P N (answered s)) with
      | Ret _ s' => Ret tt s'
      | Exc x s' => Exc x s'
      | Fuel => Fuel
      end)) /\
  (lower r <> lit "y" ->
   Splitter.split_channels fuel (lit "sox") infile P s
   = (overwrite_dialogue infile N (e :: es) ++ [Print MsgExiting],
      Ret tt (answered s))
   /\ remix_outputs (overwrite_dialogue infile N (e :: es) ++ [Print MsgExiting]) = []
   /\ world (answered s) = world s
   /\ Splitter.main fuel (prog :: P :: infile :: next :: rest) s
      = ((overwrite_dialogue infile N (e :: es) ++ [Print MsgExiting])
           ++ fst (Splitter.main fuel (prog :: P :: next :: rest) (answered s)),
         snd (Splitter.main fuel (prog :: P :: next :: rest) (answered s)))) /\
  lower (lit "yes") <> lit "y" /\ lower (lit "Y es") <> lit "y" /\
  lower [] <> lit "y" /\ lower (lit "Y") = lit "y" /\ lower (lit "y") = lit "y".
Proof.
  intros Hp Hd Hf Hq Hv Hc Hin. split; [|split].
  - intros Hr. apply (splitter_accepted fuel _ infile P N s e es r more Hq Hv Hc Hin).
    apply str_eqb_eq. exact Hr.
  - intros Hr.
    assert (Hb : str_eqb (lower r) (lit "y") = false).
    { destruct (str_eqb (lower r) (lit "y")) eqn:B; [|reflexivity].
      apply str_eqb_eq in B. contradiction. }
    pose proof (splitter_declined fuel (lit "sox") infile P N s e es r more
                  Hq Hv Hc Hin Hb) as Hs.
    split; [exact Hs|]. split; [|split; [reflexivity|]].
    + unfold overwrite_dialogue.
      change (Print ?a :: Print ?b :: ?l ++ ?m) with ([Print a; Print b] ++ l ++ m).
      rewrite !remix_outputs_app, remix_outputs_listed. reflexivity.
    + rewrite (splitter_main_files fuel prog P infile (next :: rest) s
                 Hp Hd).
      rewrite (first_file _ infile (next :: rest) s Hf).
      rewrite (bind_value _ _ _ _ _ _ Hs).
      rewrite (splitter_main_files fuel prog P next rest (answered s)
                 Hp Hd).
      reflexivity.
  - repeat split; try discriminate; reflexivity.
Qed.

Lemma overwrite_prompt_answer_witness :
  @Splitter.split_channels posix_host 7 (lit "sox") (lit "track.wav") (lit "32")
    (at_studio [lit "yes"])
  = (overwrite_dialogue (lit "track.wav") 7 [lit "track[4-5].wav"]
       ++ [Print MsgExiting],
     Ret tt (at_studio []))
  /\ remix_outputs
       (overwrite_dialogue (lit "track.wav") 7 [lit "track[4-5].wav"]
          ++ [Print MsgExiting]) = []
  /\ studio = studio
  /\ @Splitter.main posix_host 7
       [lit "channel-splitter.py"; lit "32"; lit "track.wav"; lit "other.wav"]
       (at_studio [lit "yes"])
     = ((overwrite_dialogue (lit "track.wav") 7 [lit "track[4-5].wav"]
           ++ [Print MsgExiting])
          ++ fst (@Splitter.main posix_host 7
                    [lit "channel-splitter.py"; lit "32"; lit "other.wav"]
                    (at_studio [])),
        snd (@Splitter.main posix_host 7
               [lit "channel-splitter.py"; lit "32"; lit "other.wav"]
               (at_studio []))).
Proof.
  refine (proj1 (proj2
    (@overwrite_prompt_answer posix_host 7 (lit "channel-splitter.py") (lit "32")
       (lit "track.wav") (lit "other.wav") [] 7 (at_studio [lit "yes"])
       (lit "track[4-5].wav") [] (lit "yes") [] _ _ _ _ _ _ _)) _);
    try reflexivity.
  discriminate.
Defined.

(** ** [os.path.splitext] *)

Section Splitext.
Context {RT : Runtime}.

Lemma rfind_from_bounds c p : forall i found,
  rfind_from p c i found = found \/
  i <= rfind_from p c i found < i + len p.
Proof.
  induction p as [|x p IH]; intros i found; [left; reflexivity|].
  cbn [rfind_from]. unfold len. cbn [length].
  destruct (x =? c)%N.
  - right. destruct (IH (i + 1) i) as [H|H]; [rewrite H|unfold len in H]; lia.
  - destruct (IH (i + 1) found) as [H|H]; [left; exact H|right].
    unfold len in H. lia.
Qed.

Lemma rfind_bounds p c : -1 <= rfind p c < len p.
Proof.
  unfold rfind. destruct (rfind_from_bounds c p 0 (-1)) as [H|H].
  - rewrite H. unfold len. lia.
  - lia.
Qed.

Lemma has_stem_true_iff p dot : forall n k,
  has_stem p dot k n = true <->
  exists i, (k <= i < k + n)%nat /\ nth_error p i <> Some dot.
Proof.
  induction n as [|n IH]; intros k; cbn [has_stem].
  - split; [discriminate|]. intros (i & Hi & _). lia.
  - destruct (nth_error p k) as [x|] eqn:E.
    + destruct (x =? dot)%N eqn:X.
      * apply N.eqb_eq in X. subst x. rewrite IH. split.
        -- intros (i & Hi & Hn). exists i. split; [lia|exact Hn].
        -- intros (i & Hi & Hn). exists i. split; [|exact Hn].
           assert (i <> k) by (intros ->; congruence). lia.
      * apply N.eqb_neq in X. split; [|reflexivity]. intros _.
        exists k. split; [lia|]. rewrite E. congruence.
    + split; [|reflexivity]. intros _. exists k. split; [lia|].
      rewrite E. discriminate.
Qed.

(** The separator index [os.path.splitext] works with. *)
Lemma splitext_cases p :
  let sepIndex :=
    if os_name_nt then Z.max (rfind p 92%N) (rfind p 47%N) else rfind p 47%N in
  let dotIndex := rfind p 46%N in
  (splitext p = (firstn (Z.to_nat dotIndex) p, skipn (Z.to_nat dotIndex) p)
   /\ sepIndex < dotIndex
   /\ exists i, sepIndex < i < dotIndex /\ nth_error p (Z.to_nat i) <> Some 46%N)
  \/
  (splitext p = (p, [])
   /\ ~ (exists i, sepIndex < i < dotIndex
                   /\ nth_error p (Z.to_nat i) <> Some 46%N)).
Proof.
  intros sepIndex dotIndex.
  assert (Hsep : -1 <= sepIndex).
  { unfold sepIndex. pose proof (rfind_bounds p 92%N). pose proof (rfind_bounds p 47%N).
    destruct os_name_nt; lia. }
  assert (Hsplit : splitext p =
    if (dotIndex >? sepIndex) &&
       has_stem p 46%N (Z.to_nat (sepIndex + 1)) (Z.to_nat (dotIndex - (sepIndex + 1)))
    then (firstn (Z.to_nat dotIndex) p, skipn (Z.to_nat dotIndex) p)
    else (p, [])).
  { unfold splitext, _splitext, sepIndex, dotIndex. destruct os_name_nt; reflexivity. }
  rewrite Hsplit.
  destruct (dotIndex >? sepIndex) eqn:G; cbn [andb]; zbool.
  - destruct (has_stem p 46%N _ _) eqn:S.
    + left. split; [reflexivity|]. split; [lia|].
      apply has_stem_true_iff in S. destruct S as (i & Hi & Hn).
      exists (Z.of_nat i). split; [lia|]. rewrite Nat2Z.id. exact Hn.
    + right. split; [reflexivity|]. intros (i & Hi & Hn).
      assert (T : has_stem p 46%N (Z.to_nat (sepIndex + 1))
                    (Z.to_nat (dotIndex - (sepIndex + 1))) = true).
      { apply has_stem_true_iff. exists (Z.to_nat i). split; [lia|exact Hn]. }
      congruence.
  - right. split; [reflexivity|]. intros (i & Hi & _). lia.
Qed.

Lemma splitext_join p : fst (splitext p) ++ snd (splitext p) = p.
Proof.
  destruct (splitext_cases p) as [(H & _)|(H & _)]; rewrite H; cbn [fst snd].
  - apply firstn_skipn.
  - apply app_nil_r.
Qed.

Lemma splitext_ext_nonempty p :
  snd (splitext p) <> [] <->
  exists i,
    (if os_name_nt then Z.max (rfind p 92%N) (rfind p 47%N) else rfind p 47%N) < i
      < rfind p 46%N
    /\ nth_error p (Z.to_nat i) <> Some 46%N.
Proof.
  destruct (splitext_cases p) as [(H & Hlt & Hex)|(H & Hno)]; rewrite H; cbn [snd].
  - split; [intros _; exact Hex|]. intros _.
    pose proof (rfind_bounds p 46%N) as B.
    assert (Hs : -1 <= (if os_name_nt then Z.max (rfind p 92%N) (rfind p 47%N)
                        else rfind p 47%N)).
    { pose proof (rfind_bounds p 92%N). pose proof (rfind_bounds p 47%N).
      destruct os_name_nt; lia. }
    intros E. apply (f_equal (@length _)) in E. rewrite length_skipn in E.
    cbn in E. unfold len in B. lia.
  - split; [congruence|]. intros Hex. contradiction.
Qed.

Lemma splitext_rightmost p :
  snd (splitext p) <> [] -> splitext p = split_rightmost_dot p.
Proof.
  destruct (splitext_cases p) as [(H & Hlt & Hex)|(H & Hno)]; rewrite H; cbn [snd].
  - intros _. unfold split_rightmost_dot.
    assert (Hs : -1 <= (if os_name_nt then Z.max (rfind p 92%N) (rfind p 47%N)
                        else rfind p 47%N)).
    { pose proof (rfind_bounds p 92%N). pose proof (rfind_bounds p 47%N).
      destruct os_name_nt; lia. }
    destruct (rfind p 46%N <? 0) eqn:C; zbool; [lia|reflexivity].
  - congruence.
Qed.

End Splitext.

(** ** Decimal numerals and group labels *)

Section Labels.
Context {RT : Runtime}.

Lemma ascii_roundtrip (l : list ascii) :
  map (fun x => ascii_of_N (N_of_ascii x)) l = l.
Proof.
  induction l as [|x l IH]; [reflexivity|].
  cbn [map]. rewrite ascii_N_embedding, IH. reflexivity.
Qed.

Lemma lit_inj a b : lit a = lit b -> a = b.
Proof.
  unfold lit. intros H.
  apply (f_equal (map ascii_of_N)) in H. rewrite !map_map in H.
  rewrite !ascii_roundtrip in H.
  apply (f_equal string_of_list_ascii) in H.
  rewrite !string_of_list_ascii_of_string in H. exact H.
Qed.

Lemma str_of_int_inj a b : str_of_int a = str_of_int b -> a = b.
Proof.
  unfold str_of_int. intros H. apply lit_inj in H.
  apply (f_equal NilZero.int_of_string) in H.
  assert (Hnn : forall n, Z.to_int n <> Decimal.Pos Decimal.Nil
                          /\ Z.to_int n <> Decimal.Neg Decimal.Nil).
  { intros [|p|p]; cbn; split; try discriminate;
      intros [= E]; apply (DecimalPos.Unsigned.to_uint_nonnil p E). }
  rewrite !NilZero.isi in H by apply Hnn.
  injection H as H. apply DecimalZ.to_int_inj. exact H.
Qed.

Lemma uint_digits u :
  Forall (fun c => is_ascii_digit c = true) (lit (NilEmpty.string_of_uint u)).
Proof.
  induction u; cbn [NilEmpty.string_of_uint]; try (constructor; [reflexivity|assumption]).
  constructor.
Qed.

Lemma str_of_int_digits n :
  0 <= n -> Forall (fun c => is_ascii_digit c = true) (str_of_int n).
Proof.
  intros H. unfold str_of_int. destruct n as [|p|p]; [| |lia].
  - repeat constructor.
  - cbn [Z.to_int NilZero.string_of_int]. unfold NilZero.string_of_uint.
    destruct (Pos.to_uint p) eqn:E; try (rewrite <- E; apply uint_digits).
    repeat constructor.
Qed.

(** A run of digits followed by nothing or by a character that is not a
    digit is determined by the whole string. *)
Lemma digit_prefix (d1 : str) : forall d2 r1 r2,
  Forall (fun c => is_ascii_digit c = true) d1 ->
  Forall (fun c => is_ascii_digit c = true) d2 ->
  stops r1 -> stops r2 -> d1 ++ r1 = d2 ++ r2 -> d1 = d2 /\ r1 = r2.
Proof.
  induction d1 as [|x d1 IH]; intros d2 r1 r2 H1 H2 S1 S2 E.
  - destruct d2 as [|y d2]; [split; [reflexivity|exact E]|].
    cbn in E. subst r1. cbn in S1. inversion H2; congruence.
  - destruct d2 as [|y d2].
    + cbn in E. subst r2. cbn in S2. inversion H1; congruence.
    + cbn in E. injection E as -> E. inversion H1; inversion H2; subst.
      destruct (IH d2 r1 r2) as [-> ->]; auto.
Qed.

Lemma group_label_inj a za b zb :
  0 <= a -> 0 <= b -> group_label a za = group_label b zb -> a = b /\ za = zb.
Proof.
  intros Ha Hb. unfold group_label.
  set (ra := if za =? 1 then [] else lit "-" ++ str_of_int (a + za - 1)).
  set (rb := if zb =? 1 then [] else lit "-" ++ str_of_int (b + zb - 1)).
  assert (Ea : (if za =? 1 then str_of_int a
                else str_of_int a ++ lit "-" ++ str_of_int (a + za - 1))
               = str_of_int a ++ ra).
  { unfold ra. destruct (za =? 1); [rewrite app_nil_r|]; reflexivity. }
  assert (Eb : (if zb =? 1 then str_of_int b
                else str_of_int b ++ lit "-" ++ str_of_int (b + zb - 1))
               = str_of_int b ++ rb).
  { unfold rb. destruct (zb =? 1); [rewrite app_nil_r|]; reflexivity. }
  rewrite Ea, Eb. intros E.
  destruct (digit_prefix _ _ ra rb (str_of_int_digits a Ha) (str_of_int_digits b Hb))
    as [Hab Hr]; try exact E.
  - unfold ra. destruct (za =? 1); exact I || reflexivity.
  - unfold rb. destruct (zb =? 1); exact I || reflexivity.
  - apply str_of_int_inj in Hab. subst b. split; [reflexivity|].
    unfold ra, rb in Hr.
    destruct (za =? 1) eqn:A; destruct (zb =? 1) eqn:B; zbool; try discriminate.
    + lia.
    + cbn [lit map list_ascii_of_string app] in Hr. injection Hr as Hr.
      apply str_of_int_inj in Hr. lia.
Qed.

Lemma output_path_inj p a za b zb :
  0 <= a -> 0 <= b -> output_path p a za = output_path p b zb -> a = b /\ za = zb.
Proof.
  intros Ha Hb. unfold output_path. intros E.
  apply app_inv_head in E. cbn [lit map list_ascii_of_string app] in E.
  injection E as E. apply app_inv_tail in E.
  apply group_label_inj; assumption.
Qed.

Lemma NoDup_outputs p (l : list (Z * Z)) :
  Forall (fun g => 0 <= fst g) l -> NoDup (map fst l) ->
  NoDup (map (fun g => output_path p (fst g) (snd g)) l).
Proof.
  induction l as [|g l IH]; intros Hpos Hnd; [constructor|].
  cbn [map] in *. inversion Hpos as [|? ? Hg Hl]; subst.
  inversion Hnd as [|? ? Hnin Hnd']; subst.
  constructor; [|apply IH; assumption].
  intros Hin. apply in_map_iff in Hin. destruct Hin as (h & Hh & Hhl).
  apply Hnin. apply in_map_iff. exists h. split; [|exact Hhl].
  rewrite Forall_forall in Hl.
  symmetry in Hh. destruct (output_path_inj p _ _ _ _ Hg (Hl h Hhl) Hh) as [E _].
  symmetry. exact E.
Qed.

Lemma plan_starts ds :
  ds <> [] -> Forall (fun d => 1 <= d) ds ->
  forall fuel st, 0 <= pattern_index st ->
    Forall (fun g => channel_start st <= fst g) (fst (plan fuel ds st)) /\
    NoDup (map fst (fst (plan fuel ds st))).
Proof.
  intros Hne Hall. induction fuel as [|fuel IH]; intros st Hidx.
  - cbn [plan]. destruct (running st); split; constructor.
  - cbn [plan]. destruct (running st) eqn:R; [|split; constructor].
    unfold running in R. zbool.
    pose proof (next_size_bounds ds (pattern_index st) (remaining_channels st)
                  Hne Hall Hidx R) as B.
    specialize (IH (advance st (next_size ds (pattern_index st) (remaining_channels st))
                      (next_index ds (pattern_index st)))).
    destruct (plan fuel ds _) as [l fin]. cbn [fst map] in *.
    destruct IH as [IH1 IH2]; [cbn; apply next_index_nonneg; exact Hidx|].
    cbn [advance channel_start] in IH1. split.
    + constructor; [cbn; lia|].
      revert IH1. apply Forall_impl. intros g Hg. lia.
    + constructor; [|exact IH2].
      intros Hin. apply in_map_iff in Hin. destruct Hin as (h & Hh & Hhl).
      rewrite Forall_forall in IH1. specialize (IH1 h Hhl).
      cbn [fst] in Hh. lia.
Qed.

End Labels.

(** C6, as stated, fails: the split is not always at the rightmost ['.'].
    For the relative path [./track] the only dot precedes the separator, so
    [os.path.splitext] finds no extension and the group 1-2 goes to
    [./track[1-2]], where a split at the rightmost dot would give
    [[1-2]./track]. *)
Lemma extension_not_at_rightmost_dot :
  remix_outputs
    (fst (@split_body posix_host (lit "./track") (lit "2") (mkLoop 1 4 0)
            (at_studio [])))
  = [lit "./track[1-2]"] /\
  claimed_output_path (lit "./track") 1 2 = lit "[1-2]./track" /\
  str_eqb (lit "./track[1-2]") (lit "[1-2]./track") = false.
Proof.
  repeat split; vm_compute; reflexivity.
Qed.

(** C6, amended.  Every iteration of the writing loop that returns hands
    sox one group [start .. start + size - 1] and the output path
    [base + "[" + label + "]" + extension], where the label is [start] for a
    single channel and [start-end] otherwise, and [(base, extension)] is
    [os.path.splitext] of the input path: the two parts join back to the
    path; the extension is non-empty exactly when some character other than
    ['.'] stands between the last path separator and the rightmost ['.'],
    and then the split is at that rightmost ['.']; otherwise the extension
    is empty and the base is the whole path.  [track.wav] gives
    [track[3-4].wav] for channels 3-4 and [track[1].wav] for channel 1. *)
Theorem output_path_rule {RT : Runtime} (input P : str) st s evs st' s' :
  split_body input P st s = (evs, Ret st' s') ->
  (exists size,
     channel_start st' = channel_start st + size /\
     evs = [Remix input
              (fst (splitext input) ++ lit "["
                 ++ (if size =? 1 then str_of_int (channel_start st)
                     else str_of_int (channel_start st) ++ lit "-"
                            ++ str_of_int (channel_start st + size - 1))
                 ++ lit "]" ++ snd (splitext input))
              (range (channel_start st) (channel_start st + size));
            Print (MsgSaved
              (fst (splitext input) ++ lit "["
                 ++ (if size =? 1 then str_of_int (channel_start st)
                     else str_of_int (channel_start st) ++ lit "-"
                            ++ str_of_int (channel_start st + size - 1))
                 ++ lit "]" ++ snd (splitext input)))]) /\
  fst (splitext input) ++ snd (splitext input) = input /\
  (snd (splitext input) <> [] <->
   exists i,
     (if os_name_nt then Z.max (rfind input 92%N) (rfind input 47%N)
      else rfind input 47%N) < i < rfind input 46%N
     /\ nth_error input (Z.to_nat i) <> Some 46%N) /\
  (snd (splitext input) <> [] -> splitext input = split_rightmost_dot input) /\
  (snd (splitext input) = [] -> fst (splitext input) = input) /\
  output_path (lit "track.wav") 3 2 = lit "track[3-4].wav" /\
  output_path (lit "track.wav") 1 1 = lit "track[1].wav".
Proof.
  intros H. split; [|split; [|split; [|split; [|split; [|split]]]]].
  - destruct (select_size_cases P (pattern_index st)) as [(d & i & Hs)|(e & Hs)].
    + rewrite (split_body_ret input P st s d i (Hs s)) in H.
      injection H as <- <- _.
      exists (clamp d (remaining_channels st)). split; reflexivity.
    + rewrite (split_body_exc input P st s e (Hs s)) in H. discriminate.
  - apply splitext_join.
  - apply splitext_ext_nonempty.
  - apply splitext_rightmost.
  - intros E. pose proof (splitext_join input) as J. rewrite E, app_nil_r in J.
    exact J.
  - unfold output_path, splitext. destruct os_name_nt; reflexivity.
  - unfold output_path, splitext. destruct os_name_nt; reflexivity.
Qed.

Lemma output_path_rule_witness :
  exists size,
    channel_start (mkLoop 4 4 1) = channel_start (mkLoop 3 5 0) + size /\
    [Remix (lit "track.wav") (lit "track[3].wav") [3];
     Print (MsgSaved (lit "track[3].wav"))]
    = [Remix (lit "track.wav")
         (fst (@splitext posix_host (lit "track.wav")) ++ lit "["
            ++ (if size =? 1 then str_of_int (channel_start (mkLoop 3 5 0))
                else str_of_int (channel_start (mkLoop 3 5 0)) ++ lit "-"
                       ++ str_of_int (channel_start (mkLoop 3 5 0) + size - 1))
            ++ lit "]" ++ snd (@splitext posix_host (lit "track.wav")))
         (range (channel_start (mkLoop 3 5 0)) (channel_start (mkLoop 3 5 0) + size));
       Print (MsgSaved
         (fst (@splitext posix_host (lit "track.wav")) ++ lit "["
            ++ (if size =? 1 then str_of_int (channel_start (mkLoop 3 5 0))
                else str_of_int (channel_start (mkLoop 3 5 0)) ++ lit "-"
                       ++ str_of_int (channel_start (mkLoop 3 5 0) + size - 1))
            ++ lit "]" ++ snd (@splitext posix_host (lit "track.wav"))))].
Proof.
  exact (proj1
    (@output_path_rule posix_host (lit "track.wav") (lit "1") (mkLoop 3 5 0)
       (at_studio [])
       [Remix (lit "track.wav") (lit "track[3].wav") [3];
        Print (MsgSaved (lit "track[3].wav"))]
       (mkLoop 4 4 1)
       (@mkState posix_host
          (mkHost (Some (lit "sox"))
             [(lit "track[3].wav", Some 1); (lit "track.wav", Some 7);
              (lit "track[4-5].wav", Some 2)]) [])
       eq_refl)).
Defined.

(** C8.  For a pattern of digits 1 to 9, the output paths the writing loop
    hands to sox in one run are pairwise distinct; more generally the path
    determines the group: two groups with non-negative starts that get the
    same output path for the same input have the same start and size. *)
Theorem output_paths_never_collide {RT : Runtime} (input P : str) ds N fuel s :
  map int_of_char P = map Some ds -> ds <> [] ->
  Forall (fun d => 1 <= d <= 9) ds ->
  NoDup (remix_outputs (fst (split_loop fuel input P N s))) /\
  (forall a za b zb, 0 <= a -> 0 <= b ->
     output_path input a za = output_path input b zb -> a = b /\ za = zb).
Proof.
  intros E Hne Hall. apply digits_ge1 in Hall. split.
  - unfold split_loop.
    destruct (split_loop_plan input P ds E Hne fuel (mkLoop 1 N 0) s) as [Hev _];
      [cbn; lia|].
    rewrite Hev, remix_outputs_emit.
    destruct (plan_starts ds Hne Hall fuel (mkLoop 1 N 0)) as [Hs Hnd]; [cbn; lia|].
    apply NoDup_outputs; [|exact Hnd].
    revert Hs. apply Forall_impl. cbn. intros g Hg. lia.
  - intros a za b zb Ha Hb. apply output_path_inj; assumption.
Qed.

Lemma output_paths_never_collide_witness :
  NoDup (remix_outputs
           (fst (@split_loop posix_host 7 (lit "track.wav") (lit "32") 7
                   (at_studio [])))).
Proof.
  refine (proj1
    (@output_paths_never_collide posix_host (lit "track.wav") (lit "32") [3; 2] 7
       7%nat (at_studio []) _ _ _)).
  - reflexivity.
  - discriminate.
  - repeat constructor; lia.
Defined.

(** * Further properties of the two programs *)

(** ** Start-up and the batch loop *)



(** X2.  With sox present and fewer than two arguments after the program
    name, [main] prints the usage text and returns: the pattern is not even
    looked at, no file is touched and nothing is read from standard input. *)
Theorem too_few_arguments_print_usage {RT : Runtime} fuel (argv : list str) s :
  sox_probe (world s) = Some (lit "sox") -> (length argv < 3)%nat ->
  Splitter.main fuel argv s = ([Print MsgUsage], Ret tt s) /\
  Plain.main fuel argv s = ([Print MsgUsage], Ret tt s).
Proof.
  intros Hp Hl. split.
  - unfold Splitter.main. unfold bind at 1. rewrite (splitter_probe_ok s Hp).
    destruct argv as [|a [|b [|c r]]]; try reflexivity. cbn in Hl. lia.
  - unfold Plain.main. unfold bind at 1. rewrite (plain_probe_ok s Hp).
    destruct argv as [|a [|b [|c r]]]; try reflexivity. cbn in Hl. lia.
Qed.

Lemma too_few_arguments_print_usage_witness :
  @Splitter.main posix_host 4 [lit "channel-splitter.py"; lit "32"] (at_studio [])
  = ([Print MsgUsage], Ret tt (at_studio [])) /\
  @Plain.main posix_host 4 [lit "channel-splitter.py"; lit "32"] (at_studio [])
  = ([Print MsgUsage], Ret tt (at_studio [])).
Proof.
  refine (@too_few_arguments_print_usage posix_host 4
            [lit "channel-splitter.py"; lit "32"] (at_studio []) eq_refl _).
  cbn. lia.
Defined.

Section Batch.
Context {RT : Runtime}.

(** An input file whose handling returns without changing the state: the
    batch goes on with the next file. *)
Lemma batch_step (body : str -> M unit) (f : str) rest s out :
  body f s = (out, Ret tt s) ->
  for_each (f :: rest) body s
  = (out ++ fst (for_each rest body s), snd (for_each rest body s)).
Proof.
  intros H. rewrite for_each_cons.
  exact (bind_value (body f) (fun _ => for_each rest body) s out tt s H).
Qed.

Lemma not_a_file (k : M unit) (f : str) s :
  path_isfile (world s) f = false ->
  (isfile <- ask (fun w => path_isfile w f) ;;
   if negb isfile then print (MsgFileNotFound f) else k) s
  = ([Print (MsgFileNotFound f)], Ret tt s).
Proof.
  intros H. unfold bind, ask. rewrite H. reflexivity.
Qed.

Lemma is_a_file (k : M unit) (f : str) s :
  path_isfile (world s) f = true ->
  (isfile <- ask (fun w => path_isfile w f) ;;
   if negb isfile then print (MsgFileNotFound f) else k) s
  = k s.
Proof.
  intros H. unfold bind, ask. rewrite H. cbn [negb app].
  destruct (k s) as [out r]. reflexivity.
Qed.

Lemma splitter_no_count fuel cmd f P s :
  sox_channels (world s) cmd f = None ->
  Splitter.split_channels fuel cmd f P s = ([Print (MsgNoChannelCount f)], Ret tt s).
Proof.
  intros H. unfold Splitter.split_channels, bind, ask. rewrite H. reflexivity.
Qed.

Lemma plain_no_count fuel f P s :
  sox_channels (world s) (lit "sox") f = None ->
  Plain.split_channels fuel f P s = ([Print (MsgNoChannelCount f)], Ret tt s).
Proof.
  intros H. unfold Plain.split_channels, bind, ask. rewrite H. reflexivity.
Qed.

End Batch.

(** X3.  An argument that is not an existing file costs one error line and
    nothing else: [main] reports it and handles the remaining input files
    exactly as if it had not been given; when it was the only one, [main]
    returns normally. *)
Theorem missing_input_file_is_skipped {RT : Runtime} fuel (prog P f g : str)
    (rest : list str) s :
  sox_probe (world s) = Some (lit "sox") -> isdigit P = true ->
  path_isfile (world s) f = false ->
  Splitter.main fuel [prog; P; f] s = ([Print (MsgFileNotFound f)], Ret tt s) /\
  Plain.main fuel [prog; P; f] s = ([Print (MsgFileNotFound f)], Ret tt s) /\
  Splitter.main fuel (prog :: P :: f :: g :: rest) s
  = (Print (MsgFileNotFound f) :: fst (Splitter.main fuel (prog :: P :: g :: rest) s),
     snd (Splitter.main fuel (prog :: P :: g :: rest) s)) /\
  Plain.main fuel (prog :: P :: f :: g :: rest) s
  = (Print (MsgFileNotFound f) :: fst (Plain.main fuel (prog :: P :: g :: rest) s),
     snd (Plain.main fuel (prog :: P :: g :: rest) s)).
Proof.
  intros Hp Hd Hf. repeat split.
  - rewrite (splitter_main_files fuel prog P f [] s Hp Hd).
    rewrite (batch_step _ f [] s [Print (MsgFileNotFound f)])
      by (apply not_a_file; exact Hf).
    reflexivity.
  - rewrite (plain_main_files fuel prog P f [] s Hp Hd).
    rewrite (batch_step _ f [] s [Print (MsgFileNotFound f)])
      by (apply not_a_file; exact Hf).
    reflexivity.
  - rewrite (splitter_main_files fuel prog P f (g :: rest) s Hp Hd).
    rewrite (batch_step _ f (g :: rest) s [Print (MsgFileNotFound f)])
      by (apply not_a_file; exact Hf).
    rewrite (splitter_main_files fuel prog P g rest s Hp Hd).
    reflexivity.
  - rewrite (plain_main_files fuel prog P f (g :: rest) s Hp Hd).
    rewrite (batch_step _ f (g :: rest) s [Print (MsgFileNotFound f)])
      by (apply not_a_file; exact Hf).
    rewrite (plain_main_files fuel prog P g rest s Hp Hd).
    reflexivity.
Qed.

Lemma missing_input_file_is_skipped_witness :
  @Splitter.main posix_host 7
    [lit "channel-splitter.py"; lit "32"; lit "gone.wav"; lit "track.wav"]
    (at_studio [lit "y"])
  = (Print (MsgFileNotFound (lit "gone.wav"))
       :: fst (@Splitter.main posix_host 7
                 [lit "channel-splitter.py"; lit "32"; lit "track.wav"]
                 (at_studio [lit "y"])),
     snd (@Splitter.main posix_host 7
            [lit "channel-splitter.py"; lit "32"; lit "track.wav"]
            (at_studio [lit "y"]))).
Proof.
  exact (proj1 (proj2 (proj2
    (@missing_input_file_is_skipped posix_host 7 (lit "channel-splitter.py")
       (lit "32") (lit "gone.wav") (lit "track.wav") [] (at_studio [lit "y"])
       eq_refl eq_refl eq_refl)))).
Defined.

(** X4.  When sox reports no usable channel count for an input file,
    [split_channels] prints that it cannot determine the channels and
    returns: no validation, no prompt, no sox run for that file, and [main]
    goes on with the next file. *)
Theorem unreadable_channel_count_is_skipped {RT : Runtime} fuel (prog P f g : str)
    (rest : list str) s :
  sox_probe (world s) = Some (lit "sox") -> isdigit P = true ->
  path_isfile (world s) f = true ->
  sox_channels (world s) (lit "sox") f = None ->
  Splitter.split_channels fuel (lit "sox") f P s
  = ([Print (MsgNoChannelCount f)], Ret tt s) /\
  Plain.split_channels fuel f P s = ([Print (MsgNoChannelCount f)], Ret tt s) /\
  Splitter.main fuel (prog :: P :: f :: g :: rest) s
  = (Print (MsgNoChannelCount f) :: fst (Splitter.main fuel (prog :: P :: g :: rest) s),
     snd (Splitter.main fuel (prog :: P :: g :: rest) s)) /\
  Plain.main fuel (prog :: P :: f :: g :: rest) s
  = (Print (MsgNoChannelCount f) :: fst (Plain.main fuel (prog :: P :: g :: rest) s),
     snd (Plain.main fuel (prog :: P :: g :: rest) s)).
Proof.
  intros Hp Hd Hf Hq. repeat split.
  - apply splitter_no_count. exact Hq.
  - apply plain_no_count. exact Hq.
  - rewrite (splitter_main_files fuel prog P f (g :: rest) s Hp Hd).
    rewrite (batch_step _ f (g :: rest) s [Print (MsgNoChannelCount f)]).
    + rewrite (splitter_main_files fuel prog P g rest s Hp Hd).
      reflexivity.
    + rewrite is_a_file by exact Hf. apply splitter_no_count. exact Hq.
  - rewrite (plain_main_files fuel prog P f (g :: rest) s Hp Hd).
    rewrite (batch_step _ f (g :: rest) s [Print (MsgNoChannelCount f)]).
    + rewrite (plain_main_files fuel prog P g rest s Hp Hd). reflexivity.
    + rewrite is_a_file by exact Hf. apply plain_no_count. exact Hq.
Qed.

Lemma unreadable_channel_count_is_skipped_witness :
  @Plain.split_channels posix_host 7 (lit "notes.txt") (lit "32")
    (@mkState posix_host
       (mkHost (Some (lit "sox")) [(lit "notes.txt", None); (lit "track.wav", Some 7)])
       [])
  = ([Print (MsgNoChannelCount (lit "notes.txt"))],
     Ret tt
       (@mkState posix_host
          (mkHost (Some (lit "sox"))
             [(lit "notes.txt", None); (lit "track.wav", Some 7)]) [])).
Proof.
  exact (proj1 (proj2
    (@unreadable_channel_count_is_skipped posix_host 7 (lit "channel-splitter.py")
       (lit "32") (lit "notes.txt") (lit "track.wav") []
       (@mkState posix_host
          (mkHost (Some (lit "sox"))
             [(lit "notes.txt", None); (lit "track.wav", Some 7)]) [])
       eq_refl eq_refl eq_refl eq_refl))).
Defined.

(** ** Validation and the loops on arbitrary patterns *)

Section AnyPattern.
Context {RT : Runtime}.

Lemma sum_digits_cases P : forall acc s,
  (exists v, sum_digits acc P s = ([], Ret v s)) \/
  sum_digits acc P s = ([], Exc ValueError s).
Proof.
  induction P as [|c P IH]; intros acc s.
  - left. exists acc. reflexivity.
  - cbn [sum_digits]. unfold bind, int, lift_opt.
    destruct (int_of_char c) as [d|]; [|right; reflexivity].
    unfold ret. destruct (IH (acc + d) s) as [(v & H)|H]; rewrite H.
    + left. exists v. reflexivity.
    + right. reflexivity.
Qed.

Lemma sum_digits_bad P c : forall acc s,
  In c P -> int_of_char c = None ->
  sum_digits acc P s = ([], Exc ValueError s).
Proof.
  induction P as [|x P IH]; intros acc s Hin Hc; [contradiction|].
  cbn [sum_digits]. unfold bind, int, lift_opt.
  destruct (int_of_char x) as [d|] eqn:X; [|reflexivity].
  destruct Hin as [->|Hin]; [congruence|].
  unfold ret. rewrite (IH (acc + d) s Hin Hc). reflexivity.
Qed.

Lemma validate_undecodable P c N s :
  In c P -> int_of_char c = None ->
  validate_grouping_pattern P N s = ([], Exc ValueError s).
Proof.
  intros Hin Hc. unfold validate_grouping_pattern.
  destruct P as [|x [|x2 r]]; [contradiction| |].
  - destruct Hin as [->|[]]. unfold bind, int, lift_opt. rewrite Hc. reflexivity.
  - rewrite bind_ret_l. unfold bind at 1.
    rewrite (sum_digits_bad _ c 0 s Hin Hc). reflexivity.
Qed.

(** Validation prints at most one line, runs nothing, leaves the state
    alone, and can only fail with [ValueError]. *)
Lemma validate_cases P N s :
  validate_grouping_pattern P N s = ([], Ret true s) \/
  (exists m, validate_grouping_pattern P N s = ([Print m], Ret false s)) \/
  validate_grouping_pattern P N s = ([], Exc ValueError s).
Proof.
  remember (validate_grouping_pattern P N s) as res eqn:E.
  unfold validate_grouping_pattern in E.
  set (rest := (total_pattern <- sum_digits 0 P ;;
                if total_pattern >? N
                then print (MsgSumExceeds total_pattern N) ;; ret false
                else ret true)) in E.
  assert (Hrest : rest s = ([], Ret true s) \/
                  (exists m, rest s = ([Print m], Ret false s)) \/
                  rest s = ([], Exc ValueError s)).
  { unfold rest, bind.
    destruct (sum_digits_cases P 0 s) as [(v & H)|H]; rewrite H.
    - destruct (v >? N); cbn.
      + right. left. eexists. reflexivity.
      + left. reflexivity.
    - right. right. reflexivity. }
  assert (Hskip : forall (a : M bool),
            (same <- ret false ;; if same : bool then a else rest) s = rest s).
  { intros a. rewrite bind_ret_l. reflexivity. }
  clearbody rest.
  destruct P as [|c [|c2 r]]; try (rewrite Hskip in E; subst res; exact Hrest).
  unfold bind at 1 in E. unfold int, lift_opt in E.
  destruct (int_of_char c) as [d|].
  - rewrite bind_ret_l in E. unfold ret at 1 in E. cbv beta iota in E.
    cbn [app] in E. destruct (d =? N).
    + subst res. right. left. eexists. reflexivity.
    + destruct Hrest as [H|[(m & H)|H]]; rewrite H in E; subst res.
      * left. reflexivity.
      * right. left. exists m. reflexivity.
      * right. right. reflexivity.
  - subst res. right. right. reflexivity.
Qed.

End AnyPattern.

(** ** The two programs side by side *)

Section SideBySide.
Context {RT : Runtime}.

Lemma splitter_validation_raises fuel cmd f P N s e :
  sox_channels (world s) cmd f = Some N ->
  validate_grouping_pattern P N s = ([], Exc e s) ->
  Splitter.split_channels fuel cmd f P s = ([Print (MsgTotalChannels f N)], Exc e s).
Proof.
  intros Hq Hv. unfold Splitter.split_channels, bind, ask. rewrite Hq.
  unfold print at 1. rewrite Hv. reflexivity.
Qed.

Lemma plain_validation_raises fuel f P N s e :
  sox_channels (world s) (lit "sox") f = Some N ->
  validate_grouping_pattern P N s = ([], Exc e s) ->
  Plain.split_channels fuel f P s = ([Print (MsgTotalChannels f N)], Exc e s).
Proof.
  intros Hq Hv. unfold Plain.split_channels, bind, ask. rewrite Hq.
  unfold print at 1. rewrite Hv. reflexivity.
Qed.

Lemma splitter_nothing_existing fuel cmd f P N s :
  sox_channels (world s) cmd f = Some N ->
  validate_grouping_pattern P N s = ([], Ret true s) ->
  Splitter.check_files_exist fuel f P s = ([], Ret [] s) ->
  Splitter.split_channels fuel cmd f P s
  = (Print (MsgTotalChannels f N) :: fst (split_loop fuel f P N s),
     match snd (split_loop fuel f P N s) with
     | Ret _ s' => Ret tt s'
     | Exc e s' => Exc e s'
     | Fuel => Fuel
     end).
Proof.
  intros Hq Hv Hc. unfold Splitter.split_channels, bind, ask. rewrite Hq.
  unfold print at 1. rewrite Hv. cbn [negb]. rewrite Hc. unfold ret at 1.
  cbn [app].
  destruct (split_loop fuel f P N s) as [out [st s'|e s'|]]; cbn [fst snd ret];
    rewrite ?app_nil_r; reflexivity.
Qed.

Lemma splitter_check_raises fuel cmd f P N s e :
  sox_channels (world s) cmd f = Some N ->
  validate_grouping_pattern P N s = ([], Ret true s) ->
  Splitter.check_files_exist fuel f P s = ([], Exc e s) ->
  Splitter.split_channels fuel cmd f P s = ([Print (MsgTotalChannels f N)], Exc e s).
Proof.
  intros Hq Hv Hc. unfold Splitter.split_channels, bind, ask. rewrite Hq.
  unfold print at 1. rewrite Hv. cbn [negb]. rewrite Hc. reflexivity.
Qed.

End SideBySide.

(** X5.  Where the writing loop returns and none of the paths it writes
    exists beforehand, [split_channels] of [channel-splitter.py] does
    exactly what [split_channels] of [channelsplitter.py] does on the same
    file: the same lines, the same sox runs in the same order, the same final
    state, and nothing is asked of the user. *)
Theorem same_behaviour_without_existing_outputs {RT : Runtime} fuel (f P : str) N s :
  sox_channels (world s) (lit "sox") f = Some N ->
  (exists st s', snd (split_loop fuel f P N s) = Ret st s') ->
  filter (path_exists (world s)) (remix_outputs (fst (split_loop fuel f P N s))) = [] ->
  Splitter.split_channels fuel (lit "sox") f P s = Plain.split_channels fuel f P s.
Proof.
  intros Hq (st & s' & Hret) Hnone.
  destruct (validate_cases P N s) as [Hv|[(m & Hv)|Hv]].
  - rewrite (plain_valid fuel f P N s Hq Hv).
    apply splitter_nothing_existing; try assumption.
    destruct (check_files_exist_agrees fuel f P N s s Hq) as [H1 H2].
    rewrite Hret in H2.
    destruct (Splitter.check_files_exist fuel f P s) as [out r].
    cbn [fst snd] in *. subst out.
    destruct r as [existing s1|e s1|]; try contradiction.
    destruct H2 as [-> ->]. rewrite Hnone. reflexivity.
  - rewrite (splitter_rejected fuel _ f P N s _ Hq Hv).
    rewrite (plain_rejected fuel f P N s _ Hq Hv). reflexivity.
  - rewrite (splitter_validation_raises fuel _ f P N s _ Hq Hv).
    rewrite (plain_validation_raises fuel f P N s _ Hq Hv). reflexivity.
Qed.

Lemma same_behaviour_without_existing_outputs_witness :
  @Splitter.split_channels posix_host 7 (lit "sox") (lit "track.wav") (lit "2")
    (at_studio [])
  = @Plain.split_channels posix_host 7 (lit "track.wav") (lit "2") (at_studio []).
Proof.
  refine (@same_behaviour_without_existing_outputs posix_host 7 (lit "track.wav")
            (lit "2") 7 (at_studio []) eq_refl _ eq_refl).
  eexists. eexists. reflexivity.
Defined.

(** X6.  When existing output files are found and standard input is at its
    end, the prompt is shown and [EOFError] escapes [split_channels] and
    [main]: sox is run for no group and the input files after this one are
    not handled. *)
Theorem prompt_at_end_of_input_aborts_batch {RT : Runtime} fuel (prog P f : str)
    (rest : list str) N s (e : str) (es : list str) :
  sox_probe (world s) = Some (lit "sox") -> isdigit P = true ->
  path_isfile (world s) f = true ->
  sox_channels (world s) (lit "sox") f = Some N ->
  validate_grouping_pattern P N s = ([], Ret true s) ->
  Splitter.check_files_exist fuel f P s = ([], Ret (e :: es) s) ->
  stdin s = [] ->
  Splitter.split_channels fuel (lit "sox") f P s
  = (overwrite_dialogue f N (e :: es), Exc EOFError s) /\
  Splitter.main fuel (prog :: P :: f :: rest) s
  = (overwrite_dialogue f N (e :: es), Exc EOFError s) /\
  remix_outputs (overwrite_dialogue f N (e :: es)) = [].
Proof.
  intros Hp Hd Hf Hq Hv Hc Hin.
  assert (Hs : Splitter.split_channels fuel (lit "sox") f P s
               = (overwrite_dialogue f N (e :: es), Exc EOFError s)).
  { unfold Splitter.split_channels, bind, ask. rewrite Hq.
    unfold print at 1. rewrite Hv. cbn [negb]. rewrite Hc.
    unfold print at 1. rewrite for_each_listed. unfold input. rewrite Hin.
    cbn [app]. unfold overwrite_dialogue. reflexivity. }
  split; [exact Hs|]. split.
  - rewrite (splitter_main_files fuel prog P f rest s Hp Hd).
    rewrite (first_file _ f rest s Hf). apply (bind_exc _ _ _ _ _ _ Hs).
  - unfold overwrite_dialogue.
    change (Print ?a :: Print ?b :: ?l ++ ?m) with ([Print a; Print b] ++ l ++ m).
    rewrite !remix_outputs_app, remix_outputs_listed. reflexivity.
Qed.

Lemma prompt_at_end_of_input_aborts_batch_witness :
  @Splitter.main posix_host 7
    [lit "channel-splitter.py"; lit "32"; lit "track.wav"; lit "other.wav"]
    (at_studio [])
  = (overwrite_dialogue (lit "track.wav") 7 [lit "track[4-5].wav"],
     Exc EOFError (at_studio [])).
Proof.
  exact (proj1 (proj2
    (@prompt_at_end_of_input_aborts_batch posix_host 7 (lit "channel-splitter.py")
       (lit "32") (lit "track.wav") [lit "other.wav"] 7 (at_studio [])
       (lit "track[4-5].wav") [] eq_refl eq_refl eq_refl eq_refl eq_refl eq_refl
       eq_refl))).
Defined.

(** ** Patterns that are not decimal digits, and the empty pattern *)

(** X7.  A pattern holding a character for which [int()] fails makes
    validation raise [ValueError]; nothing catches it, so [split_channels] of
    either file prints the channel count and then fails with that error,
    before any check for existing files and before any sox run. *)
Theorem undecodable_digit_raises_value_error {RT : Runtime} fuel (cmd f P : str)
    (c : codepoint) N s :
  In c P -> int_of_char c = None ->
  validate_grouping_pattern P N s = ([], Exc ValueError s) /\
  (sox_channels (world s) cmd f = Some N ->
   Splitter.split_channels fuel cmd f P s
   = ([Print (MsgTotalChannels f N)], Exc ValueError s)) /\
  (sox_channels (world s) (lit "sox") f = Some N ->
   Plain.split_channels fuel f P s
   = ([Print (MsgTotalChannels f N)], Exc ValueError s)).
Proof.
  intros Hin Hc.
  pose proof (validate_undecodable P c N s Hin Hc) as Hv.
  split; [exact Hv|]. split.
  - intros Hq. apply (splitter_validation_raises fuel cmd f P N s _ Hq Hv).
  - intros Hq. apply (plain_validation_raises fuel f P N s _ Hq Hv).
Qed.

Lemma undecodable_digit_raises_value_error_witness :
  @validate_grouping_pattern posix_host (lit "2x") 7 (at_studio [])
  = ([], Exc ValueError (at_studio [])).
Proof.
  refine (proj1
    (@undecodable_digit_raises_value_error posix_host 7 (lit "sox") (lit "track.wav")
       (lit "2x") 120%N 7 (at_studio []) _ eq_refl)).
  right. left. reflexivity.
Defined.

(** X8.  The empty pattern passes validation for every positive channel
    count, and the partition loop then fails with [IndexError] at
    its first group, when it reads the last character of the pattern.
    [main] never passes the empty pattern on: [isdigit] is false for it. *)
Theorem empty_pattern_raises_index_error {RT : Runtime} fuel (f : str) N s :
  1 <= N -> sox_channels (world s) (lit "sox") f = Some N ->
  validate_grouping_pattern [] N s = ([], Ret true s) /\
  split_loop (S fuel) f [] N s = ([], Exc IndexError s) /\
  Plain.split_channels (S fuel) f [] s
  = ([Print (MsgTotalChannels f N)], Exc IndexError s) /\
  Splitter.split_channels (S fuel) (lit "sox") f [] s
  = ([Print (MsgTotalChannels f N)], Exc IndexError s) /\
  isdigit [] = false.
Proof.
  intros HN Hq.
  assert (Hv : validate_grouping_pattern [] N s = ([], Ret true s)).
  { unfold validate_grouping_pattern. rewrite bind_ret_l.
    unfold bind, sum_digits, ret.
    destruct (0 >? N) eqn:G; zbool; [lia|reflexivity]. }
  assert (Hsel : forall s0 idx, 0 <= idx ->
            select_size [] idx s0 = ([], Exc IndexError s0)).
  { intros s0 idx Hidx. unfold select_size.
    replace (idx <? len []) with false
      by (symmetry; apply Z.ltb_ge; unfold len; cbn; lia).
    reflexivity. }
  assert (Hrun : running (mkLoop 1 N 0) = true).
  { unfold running. cbn. apply Z.gtb_lt. lia. }
  assert (Hloop : split_loop (S fuel) f [] N s = ([], Exc IndexError s)).
  { unfold split_loop. rewrite while_step by exact Hrun.
    apply bind_exc. apply split_body_exc. apply Hsel. cbn. lia. }
  split; [exact Hv|]. split; [exact Hloop|]. split; [|split; [|reflexivity]].
  - rewrite (plain_valid (S fuel) f [] N s Hq Hv). rewrite Hloop. reflexivity.
  - apply (splitter_check_raises (S fuel) _ f [] N s _ Hq Hv).
    rewrite (check_files_exist_unfold (S fuel) f [] N s Hq).
    rewrite (while_step fuel (fun c => running (check_loop c))) by exact Hrun.
    rewrite (bind_exc _ _ _ _ _ _
               (check_body_exc f [] (mkCheck (mkLoop 1 N 0) []) s IndexError
                  (Hsel s 0 (Z.le_refl 0)))).
    reflexivity.
Qed.

Lemma empty_pattern_raises_index_error_witness :
  @Plain.split_channels posix_host 1 (lit "track.wav") [] (at_studio [])
  = ([Print (MsgTotalChannels (lit "track.wav") 7)], Exc IndexError (at_studio [])).
Proof.
  refine (proj1 (proj2 (proj2
    (@empty_pattern_raises_index_error posix_host 0 (lit "track.wav") 7 (at_studio [])
       _ eq_refl)))).
  lia.
Defined.

(** ** What the writing loop writes to *)

Section Written.
Context {RT : Runtime}.

Lemma output_path_longer (f : str) a z :
  (length f < length (output_path f a z))%nat.
Proof.
  unfold output_path. rewrite !length_app.
  rewrite <- (splitext_join f) at 1. rewrite length_app.
  change (length (lit "[")) with 1%nat. change (length (lit "]")) with 1%nat. lia.
Qed.

Lemma output_path_not_input (f : str) a z : output_path f a z <> f.
Proof.
  intros E. pose proof (output_path_longer f a z) as H. rewrite E in H. lia.
Qed.

End Written.

(** X9.  Every sox run of the writing loop reads the input file and writes
    to a different path: the output name is strictly longer than the input
    name, so the loop never asks sox to overwrite the file it is splitting.
    This holds for every pattern and channel count, also when the loop
    raises or does not return. *)
Theorem writing_loop_never_overwrites_input {RT : Runtime} fuel (f P : str) N s :
  Forall (fun e => match e with
                   | Remix i o _ => i = f /\ o <> f
                                    /\ (length f < length o)%nat
                   | Print _ => True
                   end)
    (fst (split_loop fuel f P N s)).
Proof.
  unfold split_loop. generalize (mkLoop 1 N 0). revert s.
  induction fuel as [|fuel IH]; intros s st.
  - destruct (running st) eqn:R.
    + rewrite while_out by exact R. constructor.
    + rewrite while_done by exact R. constructor.
  - destruct (running st) eqn:R.
    2:{ rewrite while_done by exact R. constructor. }
    rewrite while_step by exact R.
    destruct (select_size_cases P (pattern_index st)) as [(d & i & H)|(e & H)].
    + rewrite (bind_value _ _ _ _ _ _ (split_body_ret f P st s d i (H s))).
      cbn [fst]. apply Forall_app. split; [|apply IH].
      unfold emit. cbn [fst snd]. constructor; [|constructor; [exact I|constructor]].
      split; [reflexivity|]. split.
      * apply output_path_not_input.
      * apply output_path_longer.
    + rewrite (bind_exc _ _ _ _ _ _ (split_body_exc f P st s e (H s))). constructor.
Qed.

(** ** The reply at the prompt, and the probe on Windows *)

(** X10.  Among replies made of ASCII characters only, exactly [y] and [Y]
    pass the test [user_input.lower() == 'y'] of the overwrite prompt; a
    reply with surrounding blanks or a longer word does not. *)
Theorem ascii_reply_accepted_iff_y {RT : Runtime} (r : str) :
  forallb is_ascii r = true ->
  (str_eqb (lower r) (lit "y") = true <-> r = lit "y" \/ r = lit "Y").
Proof.
  intros Ha. unfold lower. rewrite Ha. rewrite str_eqb_eq.
  change (lit "y") with [121%N]. change (lit "Y") with [89%N]. split.
  - intros E. destruct r as [|c [|c2 r']]; cbn [map] in E; try discriminate.
    injection E as E. unfold ascii_lower in E.
    destruct ((65 <=? c) && (c <=? 90))%N eqn:B.
    + right. f_equal. lia.
    + left. f_equal. exact E.
  - intros [H | H]; rewrite H; reflexivity.
Qed.

Lemma ascii_reply_accepted_iff_y_witness :
  @str_eqb (@lower posix_host (lit " y")) (lit "y") = true
  <-> lit " y" = lit "y" \/ lit " y" = lit "Y".
Proof.
  exact (@ascii_reply_accepted_iff_y posix_host (lit " y") eq_refl).
Defined.



(** ** Failures that end the batch, and files without channels *)

(** X12.  The digits-only check of [main] lets through characters that
    [int()] cannot decode.  With such a pattern the first input file that
    exists and has a channel count ends the run of either program: its
    channel count is printed, [ValueError] escapes [main], and neither this
    file nor any file after it is split. *)
Theorem undecodable_digit_aborts_batch {RT : Runtime} fuel (prog P f : str)
    (rest : list str) (c : codepoint) N s :
  sox_probe (world s) = Some (lit "sox") -> isdigit P = true ->
  In c P -> int_of_char c = None ->
  path_isfile (world s) f = true ->
  sox_channels (world s) (lit "sox") f = Some N ->
  Splitter.main fuel (prog :: P :: f :: rest) s
  = ([Print (MsgTotalChannels f N)], Exc ValueError s) /\
  Plain.main fuel (prog :: P :: f :: rest) s
  = ([Print (MsgTotalChannels f N)], Exc ValueError s).
Proof.
  intros Hp Hd Hin Hc Hf Hq.
  pose proof (validate_undecodable P c N s Hin Hc) as Hv. split.
  - rewrite (splitter_main_files fuel prog P f rest s Hp Hd).
    rewrite (first_file _ f rest s Hf).
    apply (bind_exc _ _ _ _ _ _ (splitter_validation_raises fuel _ f P N s _ Hq Hv)).
  - rewrite (plain_main_files fuel prog P f rest s Hp Hd).
    rewrite (first_file _ f rest s Hf).
    apply (bind_exc _ _ _ _ _ _ (plain_validation_raises fuel f P N s _ Hq Hv)).
Qed.

Lemma undecodable_digit_aborts_batch_witness :
  @Plain.main typeset_host 7
    [lit "channelsplitter.py"; lit "3" ++ [0xB2%N]; lit "track.wav"; lit "track[4-5].wav"]
    (@mkState typeset_host studio [])
  = ([Print (MsgTotalChannels (lit "track.wav") 7)],
     Exc ValueError (@mkState typeset_host studio [])).
Proof.
  refine (proj2
    (@undecodable_digit_aborts_batch typeset_host 7 (lit "channelsplitter.py")
       (lit "3" ++ [0xB2%N]) (lit "track.wav") [lit "track[4-5].wav"] 0xB2%N 7
       (@mkState typeset_host studio []) eq_refl eq_refl _ eq_refl eq_refl eq_refl)).
  right. left. reflexivity.
Defined.

(** X13.  A file for which sox reports no channels (a count of zero or
    less) is left alone by both programs, whatever the pattern: the count is
    printed, at most one line of validation follows, sox is run for no
    group, nothing is asked of the user, and [split_channels] returns with
    the state unchanged or fails with [ValueError] from validation.  The two
    programs behave alike here. *)
Theorem no_channels_nothing_written {RT : Runtime} fuel (f P : str) N s :
  N <= 0 -> sox_channels (world s) (lit "sox") f = Some N ->
  Splitter.split_channels fuel (lit "sox") f P s = Plain.split_channels fuel f P s /\
  remix_outputs (fst (Plain.split_channels fuel f P s)) = [] /\
  (length (fst (Plain.split_channels fuel f P s)) <= 2)%nat /\
  (snd (Plain.split_channels fuel f P s) = Ret tt s \/
   snd (Plain.split_channels fuel f P s) = Exc ValueError s).
Proof.
  intros HN Hq.
  assert (Hloop : split_loop fuel f P N s = ([], Ret (mkLoop 1 N 0) s)).
  { unfold split_loop. apply while_done. unfold running. cbn [remaining_channels].
    rewrite Z.gtb_ltb. apply Z.ltb_ge. lia. }
  destruct (validate_cases P N s) as [Hv|[(m & Hv)|Hv]].
  - assert (Hc : Splitter.check_files_exist fuel f P s = ([], Ret [] s)).
    { rewrite (check_files_exist_unfold fuel f P N s Hq).
      rewrite while_done; [reflexivity|].
      unfold running. cbn [check_loop remaining_channels].
      rewrite Z.gtb_ltb. apply Z.ltb_ge. lia. }
    rewrite (splitter_nothing_existing fuel _ f P N s Hq Hv Hc).
    rewrite (plain_valid fuel f P N s Hq Hv). rewrite Hloop. cbn [fst snd length].
    split; [reflexivity|]. split; [reflexivity|].
    split; [lia|left; reflexivity].
  - rewrite (splitter_rejected fuel _ f P N s _ Hq Hv).
    rewrite (plain_rejected fuel f P N s _ Hq Hv). cbn [fst snd length].
    split; [reflexivity|]. split; [reflexivity|].
    split; [lia|left; reflexivity].
  - rewrite (splitter_validation_raises fuel _ f P N s _ Hq Hv).
    rewrite (plain_validation_raises fuel f P N s _ Hq Hv). cbn [fst snd length].
    split; [reflexivity|]. split; [reflexivity|].
    split; [lia|right; reflexivity].
Qed.

Lemma no_channels_nothing_written_witness :
  @Splitter.split_channels posix_host 3 (lit "sox") (lit "empty.wav") (lit "2")
    (@mkState posix_host silent [])
  = @Plain.split_channels posix_host 3 (lit "empty.wav") (lit "2")
      (@mkState posix_host silent []).
Proof.
  refine (proj1 (@no_channels_nothing_written posix_host 3 (lit "empty.wav") (lit "2") 0
                   (@mkState posix_host silent []) _ eq_refl)).
  lia.
Defined.

(** ** A second run on the same file *)

Section SecondRun.
Context {RT : Runtime}.
Variable f : str.

(** What is assumed of sox: a run removes no file, creates its output file,
    and leaves the channel count of [f] alone unless it writes to [f]. *)
Hypothesis remix_keeps : forall w i o c p,
  path_exists w p = true -> path_exists (sox_remix w i o c) p = true.
Hypothesis remix_creates : forall w i o c,
  path_exists (sox_remix w i o c) o = true.
Hypothesis remix_count : forall w i o c, o <> f ->
  sox_channels (sox_remix w i o c) (lit "sox") f = sox_channels w (lit "sox") f.

Lemma loop_world P fuel : forall st s out st' s',
  while fuel running (split_body f P) st s = (out, Ret st' s') ->
  (forall p, path_exists (world s) p = true -> path_exists (world s') p = true) /\
  Forall (fun o => path_exists (world s') o = true) (remix_outputs out) /\
  sox_channels (world s') (lit "sox") f = sox_channels (world s) (lit "sox") f.
Proof.
  induction fuel as [|fuel IH]; intros st s out st' s' H.
  - destruct (running st) eqn:R.
    + rewrite while_out in H by exact R. discriminate.
    + rewrite while_done in H by exact R. injection H as <- _ <-.
      split; [auto|]. split; [constructor|reflexivity].
  - destruct (running st) eqn:R.
    2:{ rewrite while_done in H by exact R. injection H as <- _ <-.
        split; [auto|]. split; [constructor|reflexivity]. }
    rewrite while_step in H by exact R.
    destruct (select_size_cases P (pattern_index st)) as [(d & i & Hs)|(e & He)].
    + rewrite (bind_value _ _ _ _ _ _ (split_body_ret f P st s d i (Hs s))) in H.
      match type of H with
      | context [while fuel running (split_body f P) ?st1 ?s1] =>
          destruct (while fuel running (split_body f P) st1 s1) as [out1 r1] eqn:W
      end.
      cbn [fst snd] in H. injection H as <- ->.
      destruct (IH _ _ _ _ _ W) as (K1 & K2 & K3). cbn [world] in K1, K3.
      split; [|split].
      * intros p Hp. apply K1. apply remix_keeps. exact Hp.
      * unfold remix_outputs in K2 |- *. cbn [flat_map remix_of app map fst].
        constructor; [|exact K2]. apply K1. apply remix_creates.
      * rewrite K3. apply remix_count. apply output_path_not_input.
    + rewrite (bind_exc _ _ _ _ _ _ (split_body_exc f P st s e (He s))) in H.
      discriminate.
Qed.

End SecondRun.

Lemma filter_all {A} (p : A -> bool) l :
  Forall (fun x => p x = true) l -> filter p l = l.
Proof.
  induction 1 as [|x l Hx _ IH]; [reflexivity|]. cbn [filter]. rewrite Hx, IH.
  reflexivity.
Qed.

Lemma host_keeps (w : host) (i o : str) (c : list Z) (p : str) :
  @path_exists posix_host w p = true ->
  @path_exists posix_host (@sox_remix posix_host w i o c) p = true.
Proof.
  cbn. unfold host_present. cbn [host_files host_lookup].
  destruct (str_eqb o p); auto.
Qed.

Lemma host_creates (w : host) (i o : str) (c : list Z) :
  @path_exists posix_host (@sox_remix posix_host w i o c) o = true.
Proof.
  cbn. unfold host_present. cbn [host_files host_lookup].
  replace (str_eqb o o) with true; [reflexivity|].
  symmetry. apply str_eqb_eq. reflexivity.
Qed.

Lemma host_count (f : str) (w : host) (i o : str) (c : list Z) :
  o <> f ->
  @sox_channels posix_host (@sox_remix posix_host w i o c) (lit "sox") f
  = @sox_channels posix_host w (lit "sox") f.
Proof.
  intros Hne. cbn. destruct (str_eqb o f) eqn:E; [|reflexivity].
  apply str_eqb_eq in E. contradiction.
Qed.

(** X14.  Provided a sox run removes no file, creates its output file and
    leaves the channel count of the input file alone, a run of the writing
    loop that returns is followed by a pre-flight check that finds every
    file the loop has written, in the order of writing: splitting the same
    file again with the same pattern asks before overwriting any of them. *)
Theorem second_run_finds_every_output {RT : Runtime} fuel (f P : str) N s
    (out : list event) (st : loop_state) s' :
  (forall w i o c p,
     path_exists w p = true -> path_exists (sox_remix w i o c) p = true) ->
  (forall w i o c, path_exists (sox_remix w i o c) o = true) ->
  (forall w i o c, o <> f ->
     sox_channels (sox_remix w i o c) (lit "sox") f = sox_channels w (lit "sox") f) ->
  sox_channels (world s) (lit "sox") f = Some N ->
  split_loop fuel f P N s = (out, Ret st s') ->
  Splitter.check_files_exist fuel f P s' = ([], Ret (remix_outputs out) s').
Proof.
  intros H1 H2 H3 Hq Hrun.
  destruct (loop_world f H1 H2 H3 P fuel _ _ _ _ _ Hrun) as (_ & K2 & K3).
  rewrite Hq in K3.
  destruct (check_files_exist_agrees fuel f P N s' s K3) as [A B].
  rewrite Hrun in B. cbn [fst snd] in B.
  destruct (Splitter.check_files_exist fuel f P s') as [o r]. cbn [fst snd] in A, B.
  subst o. destruct r as [existing s1|e s1|]; try contradiction.
  destruct B as [-> ->]. rewrite (filter_all _ _ K2). reflexivity.
Qed.

Lemma second_run_finds_every_output_witness :
  @Splitter.check_files_exist posix_host 7 (lit "track.wav") (lit "32")
    (@mkState posix_host studio_after [])
  = ([], Ret [lit "track[1-3].wav"; lit "track[4-5].wav"; lit "track[6-7].wav"]
           (@mkState posix_host studio_after [])).
Proof.
  exact (@second_run_finds_every_output posix_host 7 (lit "track.wav") (lit "32") 7
           (at_studio []) _ _ _
           host_keeps host_creates (host_count (lit "track.wav")) eq_refl eq_refl).
Defined.

(** ** A pattern that does not fit one of the files *)

(** X15.  The pattern is checked against each file's own channel count: a
    file for which the pattern is the single digit equal to the count, or
    for which its digits sum to more than the count, costs the line with
    the count and one line with the reason, and [main] then handles the
    remaining input files exactly as if this one had not been given. *)
Theorem rejected_pattern_skips_only_that_file {RT : Runtime} fuel (prog P f g : str)
    (rest : list str) (ds : list Z) N s :
  sox_probe (world s) = Some (lit "sox") -> isdigit P = true ->
  map int_of_char P = map Some ds -> (ds = [N] \/ sum_list ds > N) ->
  path_isfile (world s) f = true ->
  sox_channels (world s) (lit "sox") f = Some N ->
  exists m,
    (m = MsgSameAsTotal P N \/ m = MsgSumExceeds (sum_list ds) N) /\
    Splitter.main fuel (prog :: P :: f :: g :: rest) s
    = (Print (MsgTotalChannels f N) :: Print m
         :: fst (Splitter.main fuel (prog :: P :: g :: rest) s),
       snd (Splitter.main fuel (prog :: P :: g :: rest) s)) /\
    Plain.main fuel (prog :: P :: f :: g :: rest) s
    = (Print (MsgTotalChannels f N) :: Print m
         :: fst (Plain.main fuel (prog :: P :: g :: rest) s),
       snd (Plain.main fuel (prog :: P :: g :: rest) s)).
Proof.
  intros Hp Hd E Hrej Hf Hq.
  assert (Hm : exists m,
            (m = MsgSameAsTotal P N \/ m = MsgSumExceeds (sum_list ds) N) /\
            validate_grouping_pattern P N s = ([Print m], Ret false s)).
  { rewrite (validate_digits P ds N s E).
    destruct (match ds with [d] => d =? N | _ => false end) eqn:Noop.
    - eexists. split; [left; reflexivity|reflexivity].
    - destruct (sum_list ds >? N) eqn:G.
      + eexists. split; [right; reflexivity|reflexivity].
      + exfalso. destruct Hrej as [->|Hgt].
        * rewrite Z.eqb_refl in Noop. discriminate.
        * zbool. lia. }
  destruct Hm as (m & Hm & Hv). exists m. split; [exact Hm|]. split.
  - rewrite (splitter_main_files fuel prog P f (g :: rest) s Hp Hd).
    rewrite (batch_step _ f (g :: rest) s [Print (MsgTotalChannels f N); Print m]).
    + rewrite (splitter_main_files fuel prog P g rest s Hp Hd).
      reflexivity.
    + rewrite is_a_file by exact Hf.
      apply (splitter_rejected fuel _ f P N s _ Hq Hv).
  - rewrite (plain_main_files fuel prog P f (g :: rest) s Hp Hd).
    rewrite (batch_step _ f (g :: rest) s [Print (MsgTotalChannels f N); Print m]).
    + rewrite (plain_main_files fuel prog P g rest s Hp Hd). reflexivity.
    + rewrite is_a_file by exact Hf.
      apply (plain_rejected fuel f P N s _ Hq Hv).
Qed.

Lemma rejected_pattern_skips_only_that_file_witness :
  exists m,
    (m = MsgSameAsTotal (lit "2") 2 \/ m = MsgSumExceeds (sum_list [2]) 2) /\
    @Splitter.main posix_host 7
      [lit "channel-splitter.py"; lit "2"; lit "track[4-5].wav"; lit "track.wav"]
      (at_studio [])
    = (Print (MsgTotalChannels (lit "track[4-5].wav") 2) :: Print m
         :: fst (@Splitter.main posix_host 7
                   [lit "channel-splitter.py"; lit "2"; lit "track.wav"] (at_studio [])),
       snd (@Splitter.main posix_host 7
              [lit "channel-splitter.py"; lit "2"; lit "track.wav"] (at_studio []))) /\
    @Plain.main posix_host 7
      [lit "channel-splitter.py"; lit "2"; lit "track[4-5].wav"; lit "track.wav"]
      (at_studio [])
    = (Print (MsgTotalChannels (lit "track[4-5].wav") 2) :: Print m
         :: fst (@Plain.main posix_host 7
                   [lit "channel-splitter.py"; lit "2"; lit "track.wav"] (at_studio [])),
       snd (@Plain.main posix_host 7
              [lit "channel-splitter.py"; lit "2"; lit "track.wav"] (at_studio []))).
Proof.
  refine (@rejected_pattern_skips_only_that_file posix_host 7
            (lit "channel-splitter.py") (lit "2") (lit "track[4-5].wav")
            (lit "track.wav") [] [2] 2 (at_studio [])
            eq_refl eq_refl eq_refl _ eq_refl eq_refl).
  left. reflexivity.
Defined.
